(** * Verification of the chat client and the Markdown converter

    Two programs are embedded here:
    - [aig/patches/llm.py]: class [LLM], whose [chat] aggregates the
      fragments of a streaming completion and retries on an empty result;
    - [scripts/convert_guides_to_docx.py]: [convert_markdown_to_docx],
      a line-based Markdown to DOCX converter.

    Python text is modelled by [string]; a character is one of Rocq's
    256 [ascii] values, read as the code point of the same number. *)

From Stdlib Require Import String Ascii List Arith Bool Lia QArith.
From Stdlib Require Import DecimalString.
From Equations Require Import Equations.
Import ListNotations.
Close Scope Q_scope.
Open Scope string_scope.

(** Decimal rendering of a natural number, as an f-string does. *)
Definition str_of_nat (n : nat) : string :=
  NilZero.string_of_uint (Nat.to_uint n).

(* ================================================================== *)
(** * The chat client ([aig/patches/llm.py]) *)
(* ================================================================== *)

Module LLM.

(** An error raised by the transport (an [openai] exception), named by
    its description. *)
Definition TransportError := string.

(** One message of the conversation: the [dict] with its two keys. *)
Record Message := mkMessage { role : string; content : string }.

(** What [chat_stream] inspects in one event of the stream.  [None] in
    [choices] stands for a missing attribute or a value that is not a
    list; [None] in [delta] for a missing or falsy delta; [None] in
    [delta_content] for a missing content. *)
Record Delta := mkDelta { delta_content : option string }.
Record Choice := mkChoice { delta : option Delta }.
Record Chunk := mkChunk { choices : option (list Choice) }.

(** The arguments of [client.chat.completions.create]. *)
Record Request := mkRequest {
  req_model : string;
  req_messages : list Message;
  req_temperature : Q;
  req_stream : bool }.

(** One streaming response: the chunks delivered, after which the stream
    either closes ([None]) or raises.  A request that raises when it is
    issued is a response with no chunk and an error: the generator runs
    [create] only when [chat] asks for the first fragment. *)
Record Response := mkResponse {
  chunks : list Chunk;
  failure : option TransportError }.

(** The transport: the response to a request, given how many requests
    were issued before it. *)
Definition Client := Request -> nat -> Response.

(** Configuration passed to [openai.OpenAI]. *)
Record ClientConfig := mkClientConfig {
  cfg_api_key : string;
  cfg_base_url : string;
  cfg_timeout : Q;
  cfg_default_headers : list (string * string) }.

Record t := mkLLM {
  model : string;
  api_key : string;
  base_url : string;
  client : Client;
  temperature : Q }.

(** [LLM.__init__] *)
Definition init (OpenAI : ClientConfig -> Client)
    (model api_key base_url : string) : t :=
  {| model := model;
     api_key := api_key;
     base_url := base_url;
     client := OpenAI {| cfg_api_key := api_key;
                         cfg_base_url := base_url;
                         cfg_timeout := 60%Q;
                         cfg_default_headers := [("api-key", api_key)] |};
     temperature := 0.7%Q |}.

(** Observable effects of [chat], in order. *)
Inductive Event :=
| EvRequest (r : Request)
| EvLogError (msg : string)
| EvSleep (seconds : Q)
| EvPrint (s : string).

Inductive Outcome :=
| Returned (s : string)
| Raised (e : TransportError).

(** The body of the [for chunk in response] loop of [chat_stream]: the
    fragments yielded for a list of chunks. *)
Fixpoint stream_chunks (cs : list Chunk) : list string :=
  match cs with
  | [] => []
  | chunk :: rest =>
      match choices chunk with
      | None => stream_chunks rest            (* not a list: continue *)
      | Some [] => stream_chunks rest         (* empty list: continue *)
      | Some (choice :: _) =>
          match delta choice with
          | None => stream_chunks rest        (* no delta: continue *)
          | Some d =>
              match delta_content d with
              | None => stream_chunks rest
              | Some "" => stream_chunks rest (* falsy content *)
              | Some content => content :: stream_chunks rest
              end
          end
      end
  end.

Definition request_of (self : t) (message : list Message) : Request :=
  {| req_model := model self;
     req_messages := message;
     req_temperature := temperature self;
     req_stream := true |}.

(** [LLM.chat_stream], for the request number [n]: the fragments the
    generator yields, then the error it raises, if any. *)
Definition chat_stream (self : t) (message : list Message) (n : nat)
    : list string * option TransportError :=
  let response := client self (request_of self message) n in
  (stream_chunks (chunks response), failure response).

(** Modelled from the spec: [utils.loging.logger] is not among the
    sources; the specification describes it as a sink that accepts
    error-severity messages, so [logger.error(msg)] is the event that
    records the message. *)
Definition logger_error (msg : string) : list Event := [EvLogError msg].

(** [time.sleep(seconds)] *)
Definition time_sleep (seconds : Q) : list Event := [EvSleep seconds].

Definition failure_message : string :=
  "LLM connection failed after 5 retries. Model output is empty. Please wait 1 minute and try again.".

(** [for word in ...: ret += word] *)
Definition consume (ret : string) (words : list string) : string :=
  fold_left String.append words ret.

(** How the [while True] loop is left. *)
Inductive LoopExit :=
| Break (ret : string)
| Return (s : string)
| Raise (e : TransportError).

(** The [while True] loop of [chat], entered with the local variables
    [ret] and [retry] and with [n] requests issued so far.  It ends
    because [retry] grows at each turn and the loop returns once it
    exceeds 5. *)
Equations? chat_loop (self : t) (message : list Message)
    (ret : string) (retry n : nat) : list Event * LoopExit
    by wf (6 - retry) lt :=
chat_loop self message ret retry n with chat_stream self message n => {
  | (words, Some e) => ([EvRequest (request_of self message)], Raise e)
  | (words, None) with string_dec (consume ret words) "" => {
    | right _ =>
        ([EvRequest (request_of self message)], Break (consume ret words))
    | left _ with lt_dec 5 (retry + 1) => {
      | left _ =>
          ((EvRequest (request_of self message)
            :: logger_error
                 ("LLM chat error, retry " ++ str_of_nat (retry + 1))
            ++ time_sleep 1.3%Q
            ++ logger_error "LLM chat error, retry 5 times, exit")%list,
           Return failure_message)
      | right _ =>
          let '(tr, ex) :=
            chat_loop self message (consume ret words) (retry + 1) (n + 1) in
          ((EvRequest (request_of self message)
            :: logger_error
                 ("LLM chat error, retry " ++ str_of_nat (retry + 1))
            ++ time_sleep 1.3%Q
            ++ tr)%list, ex) } } }.
Proof. change (6 - (retry + 1) < 6 - retry). lia. Qed.

(** [LLM.chat] *)
Definition chat (self : t) (message : list Message) (p : bool)
    : list Event * Outcome :=
  match chat_loop self message "" 0 0 with
  | (tr, Break ret) =>
      ((tr ++ (if p then [EvPrint ret] else []))%list, Returned ret)
  | (tr, Return s) => (tr, Returned s)
  | (tr, Raise e) => (tr, Raised e)
  end.

(** ** Vocabulary of the statements about [chat] *)

(** The response the transport gives to the request number [n] of a
    call of [chat]. *)
Definition response (self : t) (message : list Message) (n : nat)
    : Response :=
  client self (request_of self message) n.

(** The text fragment a chunk carries: the content of the delta of its
    first choice, when all three are there. *)
Definition fragment (c : Chunk) : option string :=
  match choices c with
  | Some (choice :: _) =>
      match delta choice with
      | Some d => delta_content d
      | None => None
      end
  | _ => None
  end.

(** The fragments of a stream, in arrival order. *)
Definition fragments (cs : list Chunk) : list string :=
  flat_map (fun c => match fragment c with
                     | Some s => [s]
                     | None => []
                     end) cs.

Definition nonempty (s : string) : bool := negb (String.eqb s "").

(** A response that closes without raising and carries no fragment or
    only empty-string fragments. *)
Definition silent (r : Response) : Prop :=
  failure r = None /\ Forall (fun s => s = "") (fragments (chunks r)).

(** What one failed attempt leaves in the trace: the request, the error
    log with the new value of [retry], the sleep. *)
Definition retry_events (req : Request) (retry : nat) : list Event :=
  [EvRequest req;
   EvLogError ("LLM chat error, retry " ++ str_of_nat retry);
   EvSleep 1.3%Q].

(** The trace of [k] failed attempts in a row, the first of which is
    made with [retry = from]. *)
Definition retries (req : Request) (from k : nat) : list Event :=
  flat_map (retry_events req) (seq (from + 1) k).

End LLM.

(* ================================================================== *)
(** * Python text operations used by the converter *)
(* ================================================================== *)

Module Py.

(** Exceptions the converter can meet. *)
Inductive Error :=
| IndexError (msg : string)
| ValueError (msg : string)
| OSError (msg : string).

(** [str.isspace] on one character: the white space among the code
    points below 256. *)
Definition isspace (c : ascii) : bool :=
  let n := nat_of_ascii c in
  (((9 <=? n) && (n <=? 13)) || ((28 <=? n) && (n <=? 32))
   || (n =? 133) || (n =? 160))%nat.

(** What the pattern [\d] accepts among the code points below 256. *)
Definition isdigit (c : ascii) : bool :=
  let n := nat_of_ascii c in ((48 <=? n) && (n <=? 57))%nat.

Fixpoint lstrip (s : string) : string :=
  match s with
  | String c rest => if isspace c then lstrip rest else s
  | EmptyString => EmptyString
  end.

Fixpoint rstrip (s : string) : string :=
  match s with
  | String c rest =>
      match rstrip rest with
      | EmptyString => if isspace c then EmptyString else String c EmptyString
      | kept => String c kept
      end
  | EmptyString => EmptyString
  end.

Definition strip (s : string) : string := rstrip (lstrip s).

(** [s.startswith(p)] *)
Definition startswith (s p : string) : bool := String.prefix p s.

(** [s[n:]] *)
Fixpoint drop (n : nat) (s : string) : string :=
  match n, s with
  | S k, String _ rest => drop k rest
  | _, _ => s
  end.

(** [s.endswith(p)] *)
Definition endswith (s p : string) : bool :=
  (String.length p <=? String.length s)%nat
  && String.eqb (drop (String.length s - String.length p) s) p.

(** [s.replace(old, new)] for a non-empty [old]: every occurrence of
    [old], found from left to right without overlap, becomes [new].
    [skip] counts the characters of a match still to be passed over. *)
Fixpoint replace_from (skip : nat) (old new s : string) : string :=
  match s with
  | EmptyString => EmptyString
  | String c rest =>
      match skip with
      | S k => replace_from k old new rest
      | O =>
          if startswith s old
          then new ++ replace_from (String.length old - 1) old new rest
          else String c (replace_from 0 old new rest)
      end
  end.

(** With an empty [old], Python puts [new] before every character and
    at the end. *)
Fixpoint intersperse (new s : string) : string :=
  match s with
  | EmptyString => new
  | String c rest => new ++ String c (intersperse new rest)
  end.

Definition replace (s old new : string) : string :=
  match old with
  | EmptyString => intersperse new s
  | _ => replace_from 0 old new s
  end.

(** The first occurrence of a non-empty [sep] in [s]: the text before it
    and the text after it. *)
Fixpoint partition (s sep : string) : option (string * string) :=
  if startswith s sep then Some (EmptyString, drop (String.length sep) s)
  else
    match s with
    | EmptyString => None
    | String c rest =>
        match partition rest sep with
        | Some (before, after) => Some (String c before, after)
        | None => None
        end
    end.

(** [s.split(sep, 1)] for a non-empty [sep]. *)
Definition split1 (s sep : string) : list string :=
  match partition s sep with
  | Some (before, after) => [before; after]
  | None => [s]
  end.

(** [l[i]] *)
Definition index {A} (l : list A) (i : nat) : Error + A :=
  match nth_error l i with
  | Some x => inr x
  | None => inl (IndexError "list index out of range")
  end.

(** After one digit has been read: more digits, then a dot and a space. *)
Fixpoint digits_dot_space (s : string) : bool :=
  match s with
  | String c rest =>
      if isdigit c then digits_dot_space rest
      else startswith s ". "
  | EmptyString => false
  end.

(** [re.match(r"^\d+\. ", s)] as a truth value. *)
Definition match_numbered (s : string) : bool :=
  match s with
  | String c rest => isdigit c && digits_dot_space rest
  | EmptyString => false
  end.

(** [os.path.join(a, b)] on POSIX. *)
Definition path_join (a b : string) : string :=
  if startswith b "/" then b
  else if String.eqb a "" || endswith a "/" then a ++ b
  else a ++ "/" ++ b.

End Py.

(* ================================================================== *)
(** * The document library, as far as the converter calls it *)
(* ================================================================== *)

(** [python-docx] is an external library.  Its calls are modelled after
    its documented behaviour: [add_paragraph] appends a paragraph, gives
    it one run when the text is not empty and none otherwise, and sets
    the style when one is passed; [add_heading] is [add_paragraph] with
    the style of the level. *)

Module Docx.

Record Font := mkFont { font_name : option string; font_size : option Z }.
Record Run := mkRun { text : string; font : Font }.
Record Paragraph := mkParagraph { runs : list Run; style : option string }.

(** The body of a document: its paragraphs in order.  A heading is a
    paragraph whose style is a heading style. *)
Definition Document := list Paragraph.

(** [Pt(points)]: a length in English Metric Units. *)
Definition Pt (points : Z) : Z := (points * 12700)%Z.

(** Code that works on the document under construction and may raise. *)
Definition M (A : Type) : Type := Document -> Py.Error + (A * Document).

Definition ret {A} (x : A) : M A := fun doc => inr (x, doc).
Definition raise {A} (e : Py.Error) : M A := fun _ => inl e.
Definition bind {A B} (m : M A) (k : A -> M B) : M B :=
  fun doc =>
    match m doc with
    | inl e => inl e
    | inr (x, doc') => k x doc'
    end.

(** A paragraph is referred to by its position in the body, a run by the
    position of its paragraph and its own position in it. *)
Definition ParagraphRef := nat.
Definition RunRef := (nat * nat)%type.

Fixpoint update {A} (l : list A) (i : nat) (f : A -> A) : list A :=
  match l, i with
  | [], _ => []
  | x :: rest, O => f x :: rest
  | x :: rest, S k => x :: update rest k f
  end.

Definition new_run (text : string) : Run :=
  {| text := text; font := {| font_name := None; font_size := None |} |}.

(** A fresh paragraph: it gets a run only if [text] is not empty, and
    the style only if one is given. *)
Definition new_paragraph (text : string) (style : option string)
    : Paragraph :=
  {| runs := match text with
             | EmptyString => []
             | _ => [new_run text]
             end;
     style := style |}.

(** [Document()] *)
Definition new_document : Document := [].

(** [doc.add_paragraph(text, style)] *)
Definition add_paragraph (text : string) (style : option string)
    : M ParagraphRef :=
  fun doc => inr (List.length doc, (doc ++ [new_paragraph text style])%list).

(** [doc.add_heading(text, level)] *)
Definition add_heading (text : string) (level : nat) : M ParagraphRef :=
  if (9 <? level)%nat
  then raise (Py.ValueError "level must be in range 0-9")
  else add_paragraph text
         (Some (match level with
                | O => "Title"
                | _ => "Heading " ++ str_of_nat level
                end)).

(** [p.style = name] *)
Definition set_style (p : ParagraphRef) (name : string) : M unit :=
  fun doc =>
    inr (tt, update doc p (fun par =>
               {| runs := runs par; style := Some name |})).

(** [p.runs[i]] *)
Definition run_at (p : ParagraphRef) (i : nat) : M RunRef :=
  fun doc =>
    match nth_error doc p with
    | Some par =>
        match Py.index (runs par) i with
        | inl e => inl e
        | inr _ => inr ((p, i), doc)
        end
    | None => inl (Py.IndexError "list index out of range")
    end.

Definition update_font (r : RunRef) (f : Font -> Font) : M unit :=
  fun doc =>
    inr (tt, update doc (fst r) (fun par =>
               {| runs := update (runs par) (snd r) (fun run =>
                            {| text := text run; font := f (font run) |});
                  style := style par |})).

(** [run.font.name = name] *)
Definition set_font_name (r : RunRef) (name : string) : M unit :=
  update_font r (fun f =>
    {| font_name := Some name; font_size := font_size f |}).

(** [run.font.size = size] *)
Definition set_font_size (r : RunRef) (size : Z) : M unit :=
  update_font r (fun f =>
    {| font_name := font_name f; font_size := Some size |}).

End Docx.

Notation "x <- m ;; k" := (Docx.bind m (fun x => k))
  (at level 61, m at next level, right associativity).
Notation "m ;;; k" := (Docx.bind m (fun _ => k))
  (at level 61, right associativity).

(* ================================================================== *)
(** * The converter ([scripts/convert_guides_to_docx.py]) *)
(* ================================================================== *)

Module Converter.

Import Py Docx.

(** The body of [for line in lines], with the local variable
    [in_code_block]; the result is its value after the line. *)
Definition process_line (in_code_block : bool) (line : string) : M bool :=
  let line := rstrip line in
  (* Handle Code Blocks *)
  if startswith line "```" then ret (negb in_code_block)
  else if in_code_block then
    p <- add_paragraph line None ;;
    set_style p "No Spacing" ;;;
    font <- run_at p 0 ;;
    set_font_name font "Courier New" ;;;
    set_font_size font (Pt 10) ;;;
    ret in_code_block
  (* Handle Headers *)
  else if startswith line "# " then
    add_heading (drop 2 line) 1 ;;; ret in_code_block
  else if startswith line "## " then
    add_heading (drop 3 line) 2 ;;; ret in_code_block
  else if startswith line "### " then
    add_heading (drop 4 line) 3 ;;; ret in_code_block
  else if startswith line "#### " then
    add_heading (drop 5 line) 4 ;;; ret in_code_block
  (* Handle Lists *)
  else if startswith (strip line) "- " || startswith (strip line) "* " then
    add_paragraph (drop 2 (strip line)) (Some "List Bullet") ;;;
    ret in_code_block
  else if match_numbered (strip line) then
    match index (split1 (strip line) ". ") 1 with
    | inl e => raise e
    | inr item =>
        add_paragraph item (Some "List Number") ;;; ret in_code_block
    end
  (* Handle Normal Text *)
  else if String.eqb (strip line) "" then ret in_code_block
  else add_paragraph line None ;;; ret in_code_block.

(** [for line in lines: ...] *)
Fixpoint for_lines (lines : list string) (in_code_block : bool) : M bool :=
  match lines with
  | [] => ret in_code_block
  | line :: rest =>
      b <- process_line in_code_block line ;; for_lines rest b
  end.

(** The conversion of the lines of one file: a new document, the state
    [in_code_block = False], then the loop over the lines. *)
Definition convert_lines (lines : list string) : Py.Error + Document :=
  match for_lines lines false new_document with
  | inl e => inl e
  | inr (_, doc) => inr doc
  end.

(** The files the converter reads: the listing of a directory and the
    lines of a file, either of which can fail. *)
Record FileSystem := mkFileSystem {
  listdir : string -> Py.Error + list string;
  readlines : string -> Py.Error + list string }.

(** Observable effects of the converter, in order. *)
Inductive Effect :=
| Print (s : string)
| Save (path : string) (doc : Document).

Definition md_path (source_dir filename : string) : string :=
  path_join source_dir filename.

Definition docx_path (source_dir filename : string) : string :=
  path_join source_dir (replace filename ".md" ".docx").

(** The body of [for filename in os.listdir(source_dir)] for one entry:
    its effects and the exception that ends the run, if any. *)
Definition convert_entry (fs : FileSystem) (source_dir filename : string)
    : list Effect * option Py.Error :=
  if endswith filename ".md" then
    let announce := Print ("Converting " ++ filename ++ " to DOCX...") in
    match readlines fs (md_path source_dir filename) with
    | inl e => ([announce], Some e)
    | inr lines =>
        match convert_lines lines with
        | inl e => ([announce], Some e)
        | inr doc =>
            ([announce;
              Save (docx_path source_dir filename) doc;
              Print ("Saved " ++ docx_path source_dir filename)], None)
        end
    end
  else ([], None).

Fixpoint convert_entries (fs : FileSystem) (source_dir : string)
    (entries : list string) : list Effect * option Py.Error :=
  match entries with
  | [] => ([], None)
  | filename :: rest =>
      match convert_entry fs source_dir filename with
      | (effects, Some e) => (effects, Some e)
      | (effects, None) =>
          let '(later, result) := convert_entries fs source_dir rest in
          ((effects ++ later)%list, result)
      end
  end.

(** [convert_markdown_to_docx(source_dir)] *)
Definition convert_markdown_to_docx (fs : FileSystem) (source_dir : string)
    : list Effect * option Py.Error :=
  match listdir fs source_dir with
  | inl e => ([], Some e)
  | inr entries => convert_entries fs source_dir entries
  end.

(** ** Vocabulary of the statements about the converter *)

(** The paragraph a line of a code block becomes. *)
Definition code_paragraph (line : string) : Paragraph :=
  {| runs := [ {| text := line;
                  font := {| font_name := Some "Courier New";
                             font_size := Some (Pt 10) |} |} ];
     style := Some "No Spacing" |}.

(** The paragraph [add_heading] appends. *)
Definition heading (text : string) (level : nat) : Paragraph :=
  new_paragraph text (Some ("Heading " ++ str_of_nat level)).



(** The test the converter applies to a line to take it for a fence. *)
Definition is_fence (raw : string) : bool := startswith (rstrip raw) "```".




(** [sub in s] *)
Fixpoint contains (s sub : string) : bool :=
  startswith s sub
  || match s with
     | EmptyString => false
     | String _ rest => contains rest sub
     end.

(** The documents saved by a run, in order. *)
Fixpoint saved (effects : list Effect) : list (string * Document) :=
  match effects with
  | [] => []
  | Save path doc :: rest => (path, doc) :: saved rest
  | Print _ :: rest => saved rest
  end.

End Converter.

(* ================================================================== *)
(** * Sample inputs *)
(* ================================================================== *)

Module Samples.

Import LLM.

Definition conversation : list Message := [mkMessage "user" "Hi"].

Definition text_chunk (s : string) : Chunk :=
  mkChunk (Some [mkChoice (Some (mkDelta (Some s)))]).

(** A transport that answers at once, among chunks without choices,
    without delta, without content and with an empty content. *)
Definition answering : Client := fun _ _ =>
  mkResponse [mkChunk None; text_chunk "Hel"; text_chunk "";
              mkChunk (Some []); mkChunk (Some [mkChoice None]);
              mkChunk (Some [mkChoice (Some (mkDelta None))]);
              text_chunk "lo"] None.

(** A transport whose streams carry nothing (even requests) or only
    empty strings (odd requests). *)
Definition mute : Client := fun _ n =>
  if Nat.even n then mkResponse [] None
  else mkResponse [text_chunk ""; text_chunk ""] None.

(** A transport whose every request raises. *)
Definition unreachable : Client := fun _ _ =>
  mkResponse [] (Some "APIConnectionError").

(** A transport that is mute twice and then breaks in the middle of the
    third stream. *)
Definition breaking : Client := fun _ n =>
  if (n <? 2)%nat then mkResponse [text_chunk ""] None
  else mkResponse [text_chunk "partial"] (Some "APITimeoutError").

Definition llm_with (c : Client) : LLM.t :=
  init (fun _ => c) "gpt" "secret" "http://localhost:11434/v1".

(** The end of a line as [readlines] leaves it. *)
Definition nl : string := String "010" "".

(** A file system with one directory of three entries. *)
Definition guides : Converter.FileSystem :=
  {| Converter.listdir := fun dir =>
       if String.eqb dir "docs/guides"
       then inr ["intro.md"; "logo.png"; "setup.md"]
       else inl (Py.OSError "No such file or directory");
     Converter.readlines := fun path =>
       if String.eqb path "docs/guides/intro.md"
       then inr ["# Title" ++ nl; nl; "```python" ++ nl; "x = 1" ++ nl]
       else if String.eqb path "docs/guides/setup.md"
       then inr ["# Title" ++ nl; "1. First" ++ nl; "2. Second" ++ nl]
       else inl (Py.OSError "No such file or directory") |}.


End Samples.

(* ================================================================== *)
(** * The entry point of the converter script *)
(* ================================================================== *)

Module Script.

Import Py Converter.

(** What the script asks of the operating system besides the files. *)
Record Process := mkProcess {
  getcwd : string;
  path_exists : string -> bool }.

(** [os.path.join(os.getcwd(), "docs", "guides")] *)
Definition guides_dir (os : Process) : string :=
  path_join (path_join (getcwd os) "docs") "guides".

(** The block run under [if __name__ == "__main__"]. *)
Definition main (os : Process) (fs : FileSystem)
    : list Effect * option Py.Error :=
  if path_exists os (guides_dir os)
  then convert_markdown_to_docx fs (guides_dir os)
  else ([Print ("Directory not found: " ++ guides_dir os)], None).

End Script.

(* ================================================================== *)
(** * Vocabulary of the further properties *)
(* ================================================================== *)

Module Observe.

Import Py Docx Converter.

Definition is_request (e : LLM.Event) : bool :=
  match e with LLM.EvRequest _ => true | _ => false end.

Definition is_sleep (e : LLM.Event) : bool :=
  match e with LLM.EvSleep _ => true | _ => false end.

Definition is_print (e : LLM.Event) : bool :=
  match e with LLM.EvPrint _ => true | _ => false end.

(** How many events of a trace pass a test. *)
Definition count {A} (f : A -> bool) (l : list A) : nat :=
  List.length (filter f l).

(** A chunk cut down to its first choice. *)
Definition first_choice_only (c : LLM.Chunk) : LLM.Chunk :=
  LLM.mkChunk match LLM.choices c with
              | Some (choice :: _) => Some [choice]
              | other => other
              end.

(** A transport that is mute three times and then answers. *)
Definition late : LLM.Client := fun _ n =>
  if (n <? 3)%nat then LLM.mkResponse [] None
  else LLM.mkResponse [Samples.text_chunk "Hi"; Samples.text_chunk "!"] None.

(** The state [in_code_block] after some lines, from the fences alone. *)
Definition in_code_after (b : bool) (lines : list string) : bool :=
  fold_left (fun b raw => if is_fence raw then negb b else b) lines b.

(** A line on which the converter adds a paragraph: neither a fence nor
    blank. *)
Definition emits (raw : string) : bool :=
  negb (is_fence raw) && negb (String.eqb (rstrip raw) "").

Fixpoint all_space (s : string) : bool :=
  match s with
  | EmptyString => true
  | String c rest => isspace c && all_space rest
  end.

Fixpoint last_is_space (s : string) : bool :=
  match s with
  | EmptyString => false
  | String c EmptyString => isspace c
  | String _ rest => last_is_space rest
  end.

(** The paragraph styles the converter uses; [None] is the default
    style of the document. *)
Definition styles : list (option string) :=
  [None; Some "No Spacing"; Some "Heading 1"; Some "Heading 2";
   Some "Heading 3"; Some "Heading 4"; Some "List Bullet";
   Some "List Number"].

(** A paragraph made of one run whose text is not empty. *)
Definition one_run (p : Paragraph) : Prop :=
  exists r, runs p = [r] /\ text r <> "".

(** What the [while True] loop of [chat] may leave in the trace: the
    request of the call, logs, sleeps of 1.3, and no printing. *)
Definition loop_event (req : LLM.Request) (e : LLM.Event) : Prop :=
  match e with
  | LLM.EvRequest r => r = req
  | LLM.EvSleep d => d = 1.3%Q
  | LLM.EvLogError _ => True
  | LLM.EvPrint _ => False
  end.

(** A paragraph as the converter leaves it: its style is one of those
    above, and it is either a code paragraph or a paragraph of another
    style with one run in the default font; its text is not empty. *)
Definition emitted (p : Paragraph) : Prop :=
  In (style p) styles
  /\ exists t, t <> ""
       /\ (p = code_paragraph t
           \/ (p = new_paragraph t (style p)
               /\ style p <> Some "No Spacing")).

(** Whether an entry of the directory is converted without error. *)
Definition converts (fs : FileSystem) (dir filename : string) : Prop :=
  snd (convert_entry fs dir filename) = None.

End Observe.

(* ================================================================== *)
(** * Facts about strings *)
(* ================================================================== *)

Module StrFacts.

Lemma app_empty_r (s : string) : s ++ "" = s.
Proof. induction s as [ | c s IH]; simpl; [ | rewrite IH]; reflexivity. Qed.

Lemma app_assoc (a b c : string) : (a ++ b) ++ c = a ++ (b ++ c).
Proof. induction a as [ | x a IH]; simpl; [ | rewrite IH]; reflexivity. Qed.

Lemma app_is_empty (a b : string) : a ++ b = "" -> a = "" /\ b = "".
Proof. destruct a; simpl; [auto | discriminate]. Qed.

Lemma concat_cons (x : string) (xs : list string) :
  String.concat "" (x :: xs) = x ++ String.concat "" xs.
Proof.
  destruct xs as [ | y ys]; simpl; [ | reflexivity].
  symmetry. apply app_empty_r.
Qed.

Import Py.

Lemma startswith_cons (c d : ascii) (s p : string) :
  startswith (String c s) (String d p)
  = if ascii_dec d c then startswith s p else false.
Proof. reflexivity. Qed.

Lemma startswith_empty (s : string) : startswith s "" = true.
Proof. destruct s; reflexivity. Qed.


Lemma startswith_inv (p : string) : forall s,
  startswith s p = true -> s = p ++ drop (String.length p) s.
Proof.
  induction p as [ | c p IH]; intros s H.
  - destruct s; reflexivity.
  - destruct s as [ | d s]; [discriminate | ].
    rewrite startswith_cons in H.
    destruct (ascii_dec c d) as [E | E]; [ | discriminate].
    subst d. simpl. f_equal. apply IH. exact H.
Qed.



End StrFacts.

(* ================================================================== *)
(** * Properties of the chat client *)
(* ================================================================== *)

Module LLMProps.

Import LLM.

(** [chat_stream] yields exactly the non-empty fragments, in order. *)
Lemma stream_chunks_fragments cs :
  stream_chunks cs = filter nonempty (fragments cs).
Proof.
  induction cs as [ | c cs IH]; [reflexivity | ].
  unfold fragments in *. simpl. unfold fragment.
  destruct (choices c) as [[ | choice others] | ]; simpl; auto.
  destruct (delta choice) as [d | ]; simpl; auto.
  destruct (delta_content d) as [[ | a s] | ]; simpl; auto.
  rewrite IH. reflexivity.
Qed.

Lemma consume_concat words : forall ret,
  consume ret words = ret ++ String.concat "" words.
Proof.
  unfold consume.
  induction words as [ | w ws IH]; intros ret.
  - simpl. symmetry. apply StrFacts.app_empty_r.
  - rewrite StrFacts.concat_cons. simpl fold_left.
    rewrite IH. apply StrFacts.app_assoc.
Qed.

Lemma consume_empty words : consume "" words = String.concat "" words.
Proof. apply consume_concat. Qed.

Lemma filter_nonempty_nil l :
  Forall (fun s => s = "") l -> filter nonempty l = [].
Proof.
  induction 1 as [ | x l Hx _ IH]; [reflexivity | ].
  subst x. simpl. exact IH.
Qed.

Lemma concat_nonempty l s :
  In s l -> s <> "" -> String.concat "" (filter nonempty l) <> "".
Proof.
  induction l as [ | x l IH]; intros Hin Hs; [contradiction | ].
  destruct x as [ | c x].
  - destruct Hin as [E | Hin]; [congruence | ]. simpl filter. auto.
  - change (filter nonempty (String c x :: l))
      with (String c x :: filter nonempty l).
    rewrite StrFacts.concat_cons. discriminate.
Qed.

Lemma retries_0 req from : retries req from 0 = [].
Proof. reflexivity. Qed.

Lemma retries_S req from k :
  retries req from (S k)
  = (retry_events req (from + 1) ++ retries req (from + 1) k)%list.
Proof.
  unfold retries. cbn [seq flat_map].
  replace (S (from + 1)) with (from + 1 + 1) by lia. reflexivity.
Qed.

Section Loop.

Variables (self : t) (message : list Message).

Let req := request_of self message.

(** One turn of the [while True] loop. *)
Lemma chat_loop_unfold ret retry n :
  chat_loop self message ret retry n =
  match chat_stream self message n with
  | (words, Some e) => ([EvRequest req], Raise e)
  | (words, None) =>
      if string_dec (consume ret words) "" then
        if lt_dec 5 (retry + 1) then
          ((retry_events req (retry + 1)
            ++ [EvLogError "LLM chat error, retry 5 times, exit"])%list,
           Return failure_message)
        else
          ((retry_events req (retry + 1)
            ++ fst (chat_loop self message (consume ret words)
                      (retry + 1) (n + 1)))%list,
           snd (chat_loop self message (consume ret words)
                  (retry + 1) (n + 1)))
      else ([EvRequest req], Break (consume ret words))
  end.
Proof.
  rewrite chat_loop_equation_1.
  unfold chat_loop_unfold_clause_1.
  destruct (chat_stream self message n) as [words [e | ]]; [reflexivity | ].
  unfold chat_loop_unfold_clause_1_clause_2.
  destruct (string_dec (consume ret words) ""); [ | reflexivity].
  unfold chat_loop_unfold_clause_1_clause_2_clause_2.
  destruct (lt_dec 5 (retry + 1)); [reflexivity | ].
  destruct (chat_loop self message (consume ret words) (retry + 1) (n + 1)).
  reflexivity.
Qed.

Lemma chat_loop_raise ret retry n words e :
  chat_stream self message n = (words, Some e) ->
  chat_loop self message ret retry n = ([EvRequest req], Raise e).
Proof.
  intros H. rewrite chat_loop_unfold, H. reflexivity.
Qed.

Lemma chat_loop_break ret retry n words :
  chat_stream self message n = (words, None) ->
  consume ret words <> "" ->
  chat_loop self message ret retry n
  = ([EvRequest req], Break (consume ret words)).
Proof.
  intros H Hne. rewrite chat_loop_unfold, H.
  destruct (string_dec (consume ret words) ""); [contradiction | reflexivity].
Qed.

Lemma chat_loop_exhausted ret retry n words :
  chat_stream self message n = (words, None) ->
  consume ret words = "" ->
  5 < retry + 1 ->
  chat_loop self message ret retry n
  = ((retry_events req (retry + 1)
      ++ [EvLogError "LLM chat error, retry 5 times, exit"])%list,
     Return failure_message).
Proof.
  intros H He Hr. rewrite chat_loop_unfold, H.
  destruct (string_dec (consume ret words) ""); [ | contradiction].
  destruct (lt_dec 5 (retry + 1)); [reflexivity | contradiction].
Qed.

Lemma chat_loop_again ret retry n words :
  chat_stream self message n = (words, None) ->
  consume ret words = "" ->
  retry + 1 <= 5 ->
  chat_loop self message ret retry n
  = ((retry_events req (retry + 1)
      ++ fst (chat_loop self message "" (retry + 1) (n + 1)))%list,
     snd (chat_loop self message "" (retry + 1) (n + 1))).
Proof.
  intros H He Hr. rewrite chat_loop_unfold, H.
  destruct (string_dec (consume ret words) ""); [ | contradiction].
  destruct (lt_dec 5 (retry + 1)); [lia | ].
  rewrite He. reflexivity.
Qed.

Lemma silent_stream n :
  silent (response self message n) ->
  chat_stream self message n = ([], None).
Proof.
  intros [Hf Hall]. unfold chat_stream. fold (response self message n).
  rewrite Hf, stream_chunks_fragments, (filter_nonempty_nil _ Hall).
  reflexivity.
Qed.

(** [k + 1] silent attempts that bring [retry] to 6 exhaust the loop. *)
Lemma chat_loop_silent k : forall retry n,
  retry + S k = 6 ->
  (forall i, i < S k -> silent (response self message (n + i))) ->
  chat_loop self message "" retry n
  = ((retries req retry (S k)
      ++ [EvLogError "LLM chat error, retry 5 times, exit"])%list,
     Return failure_message).
Proof.
  induction k as [ | k IH]; intros retry n Hk Hs.
  - assert (H0 := Hs 0 ltac:(lia)). rewrite Nat.add_0_r in H0.
    rewrite (chat_loop_exhausted _ _ _ _ (silent_stream _ H0) eq_refl)
      by lia.
    rewrite retries_S, retries_0, app_nil_r. reflexivity.
  - assert (H0 := Hs 0 ltac:(lia)). rewrite Nat.add_0_r in H0.
    rewrite (chat_loop_again _ _ _ _ (silent_stream _ H0) eq_refl) by lia.
    rewrite (IH (retry + 1) (n + 1)).
    + rewrite (retries_S _ _ (S k)), <- app_assoc. reflexivity.
    + lia.
    + intros i Hi. replace (n + 1 + i) with (n + S i) by lia.
      apply Hs. lia.
Qed.

(** [k] silent attempts followed by one that raises: the error leaves
    the loop. *)
Lemma chat_loop_silent_then_raise k e : forall retry n,
  retry + k <= 5 ->
  (forall i, i < k -> silent (response self message (n + i))) ->
  failure (response self message (n + k)) = Some e ->
  chat_loop self message "" retry n
  = ((retries req retry k ++ [EvRequest req])%list, Raise e).
Proof.
  induction k as [ | k IH]; intros retry n Hk Hs He.
  - rewrite Nat.add_0_r in He.
    apply chat_loop_raise
      with (words := stream_chunks (chunks (response self message n))).
    unfold chat_stream. fold (response self message n).
    rewrite He. reflexivity.
  - assert (H0 := Hs 0 ltac:(lia)). rewrite Nat.add_0_r in H0.
    rewrite (chat_loop_again _ _ _ _ (silent_stream _ H0) eq_refl) by lia.
    rewrite (IH (retry + 1) (n + 1)).
    + rewrite retries_S, <- app_assoc. reflexivity.
    + lia.
    + intros i Hi. replace (n + 1 + i) with (n + S i) by lia.
      apply Hs. lia.
    + replace (n + 1 + k) with (n + S k) by lia. exact He.
Qed.

(** [k] silent attempts followed by one that closes normally with a
    non-empty fragment: the loop is left with the text of that attempt. *)
Lemma chat_loop_silent_then_answer k s : forall retry n,
  retry + k <= 5 ->
  (forall i, i < k -> silent (response self message (n + i))) ->
  failure (response self message (n + k)) = None ->
  In s (fragments (chunks (response self message (n + k)))) ->
  s <> "" ->
  chat_loop self message "" retry n
  = ((retries req retry k ++ [EvRequest req])%list,
     Break (String.concat ""
              (filter nonempty
                 (fragments (chunks (response self message (n + k))))))).
Proof.
  induction k as [ | k IH]; intros retry n Hk Hs Hf Hin Hne.
  - rewrite Nat.add_0_r in *.
    assert (Hstream : chat_stream self message n
              = (filter nonempty
                   (fragments (chunks (response self message n))), None)).
    { unfold chat_stream. fold (response self message n).
      rewrite Hf, stream_chunks_fragments. reflexivity. }
    rewrite (chat_loop_break _ _ _ _ Hstream); rewrite consume_empty.
    + reflexivity.
    + exact (concat_nonempty _ _ Hin Hne).
  - assert (H0 := Hs 0 ltac:(lia)). rewrite Nat.add_0_r in H0.
    rewrite (chat_loop_again _ _ _ _ (silent_stream _ H0) eq_refl) by lia.
    replace (n + S k) with (n + 1 + k) in * by lia.
    rewrite (IH (retry + 1) (n + 1)); try assumption.
    + rewrite retries_S, <- app_assoc. reflexivity.
    + lia.
    + intros i Hi. replace (n + 1 + i) with (n + S i) by lia.
      apply Hs. lia.
Qed.

(** How the loop can be left, whatever the transport does. *)
Lemma chat_loop_exits k : forall retry n,
  retry + S k = 6 ->
  match snd (chat_loop self message "" retry n) with
  | Break s =>
      s <> "" /\
      exists m, n <= m < n + S k /\
        failure (response self message m) = None /\
        s = String.concat ""
              (filter nonempty (fragments (chunks (response self message m))))
  | Return s => s = failure_message
  | Raise e =>
      exists m, n <= m < n + S k /\
        failure (response self message m) = Some e
  end.
Proof.
  induction k as [ | k IH]; intros retry n Hk;
    rewrite chat_loop_unfold; unfold chat_stream;
    fold (response self message n);
    destruct (failure (response self message n)) as [e | ] eqn:Hf;
    try (simpl; exists n; split; [lia | exact Hf]);
    rewrite consume_empty, stream_chunks_fragments;
    destruct (string_dec _ "") as [E | E];
    try (simpl; split; [exact E | ];
         exists n; split; [lia | ]; split; [exact Hf | reflexivity]).
  - destruct (lt_dec 5 (retry + 1)); [reflexivity | lia].
  - destruct (lt_dec 5 (retry + 1)); [lia | ].
    simpl snd. rewrite E.
    specialize (IH (retry + 1) (n + 1) ltac:(lia)).
    destruct (snd (chat_loop self message "" (retry + 1) (n + 1)))
      as [s | s | e'].
    + destruct IH as [Hs [m [Hm H]]]. split; [exact Hs | ].
      exists m. split; [lia | exact H].
    + exact IH.
    + destruct IH as [m [Hm H]]. exists m. split; [lia | exact H].
Qed.

End Loop.

(** C1: when the stream of the first request closes normally and carries
    at least one non-empty fragment, [chat] returns the concatenation of
    all the non-empty fragments in arrival order, and the only effects
    are that one request and, if asked for, the printing of the result:
    no log, no sleep, no second request. *)
Theorem chat_returns_concatenation
    (self : t) (message : list Message) (p : bool) :
  failure (response self message 0) = None ->
  (exists s, In s (fragments (chunks (response self message 0)))
             /\ s <> "") ->
  chat self message p
  = (EvRequest (request_of self message)
       :: (if p
           then [EvPrint
                   (String.concat ""
                      (filter nonempty
                         (fragments (chunks (response self message 0)))))]
           else []),
     Returned
       (String.concat ""
          (filter nonempty (fragments (chunks (response self message 0)))))).
Proof.
  intros Hf [s [Hin Hs]]. unfold chat.
  assert (Hstream : chat_stream self message 0
            = (filter nonempty
                 (fragments (chunks (response self message 0))), None)).
  { unfold chat_stream. fold (response self message 0).
    rewrite Hf, stream_chunks_fragments. reflexivity. }
  rewrite (chat_loop_break _ _ _ _ _ _ Hstream).
  - rewrite consume_empty. reflexivity.
  - rewrite consume_empty. exact (concat_nonempty _ _ Hin Hs).
Qed.

Lemma chat_returns_concatenation_witness :
  chat (Samples.llm_with Samples.answering) Samples.conversation true
  = ([EvRequest (request_of (Samples.llm_with Samples.answering)
                   Samples.conversation);
      EvPrint "Hello"],
     Returned "Hello").
Proof.
  apply (chat_returns_concatenation
           (Samples.llm_with Samples.answering) Samples.conversation true).
  - reflexivity.
  - exists "Hel". split; [simpl; auto | discriminate].
Defined.

(** The same after [k <= 5] silent attempts: the retries, then the
    request that is answered. *)
Lemma chat_answers_after_retries
    (self : t) (message : list Message) (p : bool) (k : nat) :
  k <= 5 ->
  (forall n, n < k -> silent (response self message n)) ->
  failure (response self message k) = None ->
  (exists s, In s (fragments (chunks (response self message k)))
             /\ s <> "") ->
  fst (chat self message p)
  = (retries (request_of self message) 0 k
     ++ EvRequest (request_of self message)
        :: (if p
            then [EvPrint
                    (String.concat ""
                       (filter nonempty
                          (fragments (chunks (response self message k)))))]
            else []))%list
  /\ snd (chat self message p)
     = Returned
         (String.concat ""
            (filter nonempty (fragments (chunks (response self message k))))).
Proof.
  intros Hk Hs Hf [s [Hin Hne]]. unfold chat.
  rewrite (chat_loop_silent_then_answer self message k s 0 0 ltac:(lia)
             Hs Hf Hin Hne).
  cbn [fst snd]. rewrite <- app_assoc. split; reflexivity.
Qed.

(** C2: when each of the six attempts closes normally with no fragment
    or with empty-string fragments only, [chat] makes six requests, each
    followed by an error log carrying the retry count and by a sleep of
    1.3, logs the exhaustion and returns the fixed failure string; the
    two kinds of empty stream are not told apart. *)
Theorem chat_gives_up_after_five_retries
    (self : t) (message : list Message) (p : bool) :
  (forall n, n < 6 -> silent (response self message n)) ->
  chat self message p
  = ((retries (request_of self message) 0 6
      ++ [EvLogError "LLM chat error, retry 5 times, exit"])%list,
     Returned failure_message).
Proof.
  intros Hs. unfold chat.
  rewrite (chat_loop_silent self message 5 0 0 eq_refl); [reflexivity | ].
  intros i Hi. exact (Hs i Hi).
Qed.

Lemma chat_gives_up_after_five_retries_witness :
  let req := request_of (Samples.llm_with Samples.mute)
               Samples.conversation in
  chat (Samples.llm_with Samples.mute) Samples.conversation true
  = ([EvRequest req; EvLogError "LLM chat error, retry 1"; EvSleep 1.3%Q;
      EvRequest req; EvLogError "LLM chat error, retry 2"; EvSleep 1.3%Q;
      EvRequest req; EvLogError "LLM chat error, retry 3"; EvSleep 1.3%Q;
      EvRequest req; EvLogError "LLM chat error, retry 4"; EvSleep 1.3%Q;
      EvRequest req; EvLogError "LLM chat error, retry 5"; EvSleep 1.3%Q;
      EvRequest req; EvLogError "LLM chat error, retry 6"; EvSleep 1.3%Q;
      EvLogError "LLM chat error, retry 5 times, exit"],
     Returned failure_message).
Proof.
  apply (chat_gives_up_after_five_retries
           (Samples.llm_with Samples.mute) Samples.conversation true).
  intros n Hn.
  do 6 (destruct n as [ | n];
        [split; [reflexivity | repeat constructor] | ]).
  lia.
Defined.

(** C3 as stated fails: a transport whose request raises makes [chat]
    raise at the first attempt, with no retry and no failure string. *)
Lemma transport_error_reaches_caller :
  let self := Samples.llm_with Samples.unreachable in
  failure (response self Samples.conversation 0) = Some "APIConnectionError"
  /\ chat self Samples.conversation false
     = ([EvRequest (request_of self Samples.conversation)],
        Raised "APIConnectionError")
  /\ snd (chat self Samples.conversation false) <> Returned failure_message.
Proof.
  split; [reflexivity | ]. split; [reflexivity | discriminate].
Qed.

(** C3, amended: an error raised by the transport, when the request is
    issued or while its stream is read, is not caught.  After [k <= 5]
    silent attempts, each retried as usual, [chat] raises the error of
    the next attempt at once: no further log, sleep or request, no
    failure string, and whatever fragments arrived before the error are
    lost. *)
Theorem chat_propagates_transport_error
    (self : t) (message : list Message) (p : bool)
    (k : nat) (e : TransportError) :
  k <= 5 ->
  (forall n, n < k -> silent (response self message n)) ->
  failure (response self message k) = Some e ->
  chat self message p
  = ((retries (request_of self message) 0 k
      ++ [EvRequest (request_of self message)])%list,
     Raised e).
Proof.
  intros Hk Hs He. unfold chat.
  rewrite (chat_loop_silent_then_raise self message k e 0 0);
    [reflexivity | lia | exact Hs | exact He].
Qed.

Lemma chat_propagates_transport_error_witness :
  let req := request_of (Samples.llm_with Samples.breaking)
               Samples.conversation in
  chat (Samples.llm_with Samples.breaking) Samples.conversation true
  = ([EvRequest req; EvLogError "LLM chat error, retry 1"; EvSleep 1.3%Q;
      EvRequest req; EvLogError "LLM chat error, retry 2"; EvSleep 1.3%Q;
      EvRequest req],
     Raised "APITimeoutError").
Proof.
  apply (chat_propagates_transport_error
           (Samples.llm_with Samples.breaking) Samples.conversation true
           2 "APITimeoutError").
  - lia.
  - intros n Hn.
    do 2 (destruct n as [ | n];
          [split; [reflexivity | repeat constructor] | ]).
    lia.
  - reflexivity.
Defined.

(** C10: whatever the transport does, [chat] either raises the error of
    one of its at most six requests, or returns a string that is not
    empty: the fixed failure message, or the concatenation of the
    non-empty fragments of a request whose stream closed normally. *)
Theorem chat_never_returns_empty
    (self : t) (message : list Message) (p : bool) :
  match snd (chat self message p) with
  | Returned s =>
      s <> "" /\
      (s = failure_message \/
       exists m, m < 6 /\
         failure (response self message m) = None /\
         s = String.concat ""
               (filter nonempty
                  (fragments (chunks (response self message m)))))
  | Raised e =>
      exists m, m < 6 /\ failure (response self message m) = Some e
  end.
Proof.
  unfold chat.
  pose proof (chat_loop_exits self message 5 0 0 eq_refl) as H.
  destruct (chat_loop self message "" 0 0) as [tr [s | s | e]];
    simpl in H |- *.
  - destruct H as [Hs [m [Hm H]]]. split; [exact Hs | ].
    right. exists m. split; [lia | exact H].
  - subst s. split; [discriminate | left; reflexivity].
  - destruct H as [m [Hm H]]. exists m. split; [lia | exact H].
Qed.

End LLMProps.

(* ================================================================== *)
(** * Properties of the converter *)
(* ================================================================== *)

Module ConverterProps.

Import Py Docx Converter.

Lemma update_last {A} (l : list A) (x : A) (f : A -> A) :
  update (l ++ [x]) (List.length l) f = (l ++ [f x])%list.
Proof.
  induction l as [ | y l IH]; simpl; [reflexivity | ].
  rewrite IH. reflexivity.
Qed.

Lemma nth_error_last {A} (l : list A) (x : A) :
  nth_error (l ++ [x]) (List.length l) = Some x.
Proof.
  rewrite nth_error_app2 by lia. rewrite Nat.sub_diag. reflexivity.
Qed.

(** A line of a code block that is not empty becomes a code paragraph. *)
Lemma code_line_emitted (c : ascii) (s : string) (doc : Document) :
  (p <- add_paragraph (String c s) None ;;
   set_style p "No Spacing" ;;;
   font <- run_at p 0 ;;
   set_font_name font "Courier New" ;;;
   set_font_size font (Pt 10) ;;;
   ret true) doc
  = inr (true, (doc ++ [code_paragraph (String c s)])%list).
Proof.
  unfold bind, add_paragraph, set_style, run_at, set_font_name,
    set_font_size, update_font, ret.
  rewrite update_last, nth_error_last.
  cbn [runs new_paragraph index nth_error fst snd].
  rewrite !update_last. reflexivity.
Qed.

(** An empty line of a code block has no run to style. *)
Lemma code_line_blank (doc : Document) :
  (p <- add_paragraph "" None ;;
   set_style p "No Spacing" ;;;
   font <- run_at p 0 ;;
   set_font_name font "Courier New" ;;;
   set_font_size font (Pt 10) ;;;
   ret true) doc
  = inl (IndexError "list index out of range").
Proof.
  unfold bind, add_paragraph, set_style, run_at.
  rewrite update_last, nth_error_last. reflexivity.
Qed.

(** What [process_line] does, with the calls to the library carried
    out. *)
Lemma process_line_table (b : bool) (raw : string) (doc : Document) :
  process_line b raw doc =
  let line := rstrip raw in
  if startswith line "```" then inr (negb b, doc)
  else if b then
    match line with
    | EmptyString => inl (IndexError "list index out of range")
    | _ => inr (true, (doc ++ [code_paragraph line])%list)
    end
  else if startswith line "# " then
    inr (false, (doc ++ [heading (drop 2 line) 1])%list)
  else if startswith line "## " then
    inr (false, (doc ++ [heading (drop 3 line) 2])%list)
  else if startswith line "### " then
    inr (false, (doc ++ [heading (drop 4 line) 3])%list)
  else if startswith line "#### " then
    inr (false, (doc ++ [heading (drop 5 line) 4])%list)
  else if startswith (strip line) "- " || startswith (strip line) "* " then
    inr (false,
         (doc ++ [new_paragraph (drop 2 (strip line))
                    (Some "List Bullet")])%list)
  else if match_numbered (strip line) then
    match index (split1 (strip line) ". ") 1 with
    | inl e => inl e
    | inr item =>
        inr (false, (doc ++ [new_paragraph item (Some "List Number")])%list)
    end
  else if String.eqb (strip line) "" then inr (false, doc)
  else inr (false, (doc ++ [new_paragraph line None])%list).
Proof.
  unfold process_line. cbv zeta.
  destruct (startswith (rstrip raw) "```"); [reflexivity | ].
  destruct b.
  { destruct (rstrip raw) as [ | c s];
      [apply code_line_blank | apply code_line_emitted]. }
  destruct (startswith (rstrip raw) "# "); [reflexivity | ].
  destruct (startswith (rstrip raw) "## "); [reflexivity | ].
  destruct (startswith (rstrip raw) "### "); [reflexivity | ].
  destruct (startswith (rstrip raw) "#### "); [reflexivity | ].
  destruct (startswith (strip (rstrip raw)) "- "
            || startswith (strip (rstrip raw)) "* "); [reflexivity | ].
  destruct (match_numbered (strip (rstrip raw))).
  { destruct (index _ 1); reflexivity. }
  destruct (String.eqb (strip (rstrip raw)) ""); reflexivity.
Qed.













(** ** Numbered lists *)



Lemma partition_cons (c : ascii) (s sep : string) :
  partition (String c s) sep
  = if startswith (String c s) sep
    then Some ("", drop (String.length sep) (String c s))
    else match partition s sep with
         | Some (before, after) => Some (String c before, after)
         | None => None
         end.
Proof. reflexivity. Qed.


Lemma contains_cons (c : ascii) (s sub : string) :
  contains (String c s) sub
  = startswith (String c s) sub || contains s sub.
Proof. reflexivity. Qed.







(** ** Code blocks *)


(** A blank line of a code block stops the conversion. *)
Lemma code_line_blank_raises (raw : string) (doc : Document) :
  rstrip raw = "" ->
  process_line true raw doc = inl (IndexError "list index out of range").
Proof.
  intros E. rewrite process_line_table. cbv zeta. rewrite E. reflexivity.
Qed.

(** The conversions listed in the specification. *)
Example title_is_a_heading :
  convert_lines ["# Title"] = inr [heading "Title" 1].
Proof. reflexivity. Qed.

Example two_numbered_items :
  convert_lines ["1. First" ++ Samples.nl; "2. Second"]
  = inr [new_paragraph "First" (Some "List Number");
         new_paragraph "Second" (Some "List Number")].
Proof. reflexivity. Qed.

Example both_bullet_markers :
  convert_lines ["- item" ++ Samples.nl; "* item" ++ Samples.nl]
  = inr [new_paragraph "item" (Some "List Bullet");
         new_paragraph "item" (Some "List Bullet")].
Proof. reflexivity. Qed.

Example blank_line_adds_nothing :
  convert_lines ["one" ++ Samples.nl; Samples.nl; "two" ++ Samples.nl]
  = inr [new_paragraph "one" None; new_paragraph "two" None].
Proof. reflexivity. Qed.

(** C5, where the code departs from it: the fenced block of the
    specification is converted as promised, but a fenced block that holds
    an empty line makes the conversion of the file raise [IndexError],
    because the paragraph made for the empty line has no run to style. *)
Theorem blank_line_in_code_block_raises :
  convert_lines ["```" ++ Samples.nl; "code line" ++ Samples.nl;
                 "```" ++ Samples.nl]
  = inr [code_paragraph "code line"]
  /\ convert_lines ["```" ++ Samples.nl; "x = 1" ++ Samples.nl; Samples.nl;
                    "y = 2" ++ Samples.nl; "```" ++ Samples.nl]
     = inl (IndexError "list index out of range").
Proof. split; reflexivity. Qed.





Lemma saved_app (a b : list Effect) :
  saved (a ++ b) = (saved a ++ saved b)%list.
Proof.
  induction a as [ | [s | path doc] a IH]; simpl; [ | | rewrite IH];
    auto.
Qed.

(** What one entry of the directory contributes to the run: nothing,
    or the document made from its lines alone. *)
Lemma convert_entry_table (fs : FileSystem) (dir filename : string) :
  (saved (fst (convert_entry fs dir filename)),
   snd (convert_entry fs dir filename))
  = if endswith filename ".md" then
      match readlines fs (md_path dir filename) with
      | inl e => ([], Some e)
      | inr lines =>
          match convert_lines lines with
          | inl e => ([], Some e)
          | inr doc => ([(docx_path dir filename, doc)], None)
          end
      end
    else ([], None).
Proof.
  unfold convert_entry.
  destruct (endswith filename ".md"); [ | reflexivity].
  destruct (readlines fs (md_path dir filename)); [reflexivity | ].
  destruct (convert_lines _); reflexivity.
Qed.





(** ** Output paths *)

Lemma startswith_md_boundary (c : ascii) (s : string) :
  startswith (String c s) ".md" = false ->
  startswith (String c (s ++ ".md")) ".md" = false.
Proof.
  destruct s as [ | c2 [ | c3 s3]]; cbn [append].
  - intros _. rewrite !StrFacts.startswith_cons.
    repeat (destruct (ascii_dec _ _)); try discriminate; reflexivity.
  - intros _. rewrite !StrFacts.startswith_cons.
    repeat (destruct (ascii_dec _ _)); try discriminate; reflexivity.
  - rewrite !StrFacts.startswith_cons, !StrFacts.startswith_empty. auto.
Qed.

(** When the name holds the extension only at its end, the replacement
    changes the extension and nothing else. *)
Lemma replace_single_extension (stem : string) :
  contains stem ".md" = false ->
  replace (stem ++ ".md") ".md" ".docx" = stem ++ ".docx".
Proof.
  unfold replace. induction stem as [ | c stem IH]; intros H.
  - reflexivity.
  - rewrite contains_cons in H. apply orb_false_elim in H.
    destruct H as [Hhead Hrest].
    change (String c stem ++ ".md") with (String c (stem ++ ".md")).
    cbn [replace_from].
    rewrite (startswith_md_boundary _ _ Hhead), (IH Hrest). reflexivity.
Qed.

Lemma docx_path_single_extension (source_dir stem : string) :
  contains stem ".md" = false ->
  docx_path source_dir (stem ++ ".md")
  = path_join source_dir (stem ++ ".docx").
Proof.
  intros H. unfold docx_path. rewrite (replace_single_extension _ H).
  reflexivity.
Qed.

(** C4, where the code departs from it: for a name that holds the
    extension twice, the derived path has both occurrences replaced and
    not only the trailing one. *)
Theorem docx_path_replaces_every_extension :
  endswith "setup.md.old.md" ".md" = true
  /\ docx_path "docs/guides" "setup.md.old.md"
     = "docs/guides/setup.docx.old.docx"
  /\ docx_path "docs/guides" "setup.md.old.md"
     <> "docs/guides/setup.md.old.docx".
Proof.
  split; [reflexivity | ]. split; [reflexivity | discriminate].
Qed.

(** ** Repeated conversions *)



End ConverterProps.

(* ================================================================== *)
(** * Further properties of the chat client *)
(* ================================================================== *)

Module LLMExtras.

Import LLM Observe.

(** X1: [chat_stream] yields the non-empty fragments of the response, in
    arrival order, and nothing else: no fragment it yields is the empty
    string, and the error it ends with is the one of the response. *)
Theorem chat_stream_yields_nonempty_fragments
    (self : t) (message : list Message) (n : nat) :
  fst (chat_stream self message n)
  = filter nonempty (fragments (chunks (response self message n)))
  /\ Forall (fun w => w <> "") (fst (chat_stream self message n))
  /\ snd (chat_stream self message n) = failure (response self message n).
Proof.
  unfold chat_stream. fold (response self message n). cbn [fst snd].
  rewrite LLMProps.stream_chunks_fragments.
  split; [reflexivity | ]. split; [ | reflexivity].
  apply Forall_forall. intros w Hw. apply filter_In in Hw.
  destruct Hw as [_ Hw]. intros E. subst w. discriminate.
Qed.

Lemma stream_chunks_app (a b : list Chunk) :
  stream_chunks (a ++ b) = (stream_chunks a ++ stream_chunks b)%list.
Proof.
  rewrite !LLMProps.stream_chunks_fragments. unfold fragments.
  rewrite flat_map_app, filter_app. reflexivity.
Qed.

(** X2: a chunk that carries no fragment (no choices, no delta, no
    content) or an empty one can be put anywhere in a stream without
    changing what [chat_stream] yields. *)
Theorem contentless_chunk_is_skipped (a b : list Chunk) (c : Chunk) :
  fragment c = None \/ fragment c = Some "" ->
  stream_chunks (a ++ c :: b) = stream_chunks (a ++ b).
Proof.
  intros H. rewrite !stream_chunks_app. f_equal.
  change (c :: b) with ([c] ++ b)%list. rewrite stream_chunks_app.
  replace (stream_chunks [c]) with (@nil string); [reflexivity | ].
  rewrite LLMProps.stream_chunks_fragments. unfold fragments. simpl.
  destruct H as [H | H]; rewrite H; reflexivity.
Qed.

Lemma contentless_chunk_is_skipped_witness :
  stream_chunks [Samples.text_chunk "a"; mkChunk (Some [mkChoice None]);
                 Samples.text_chunk "b"]
  = stream_chunks [Samples.text_chunk "a"; Samples.text_chunk "b"].
Proof.
  apply (contentless_chunk_is_skipped [Samples.text_chunk "a"]
           [Samples.text_chunk "b"] (mkChunk (Some [mkChoice None]))).
  left. reflexivity.
Defined.

(** X3: only the first choice of a chunk is read: the other choices
    never reach the result. *)
Theorem only_first_choice_is_read (cs : list Chunk) :
  stream_chunks (map first_choice_only cs) = stream_chunks cs.
Proof.
  induction cs as [ | c cs IH]; [reflexivity | ].
  cbn [map stream_chunks]. rewrite IH.
  unfold first_choice_only.
  destruct (choices c) as [[ | choice others] | ]; reflexivity.
Qed.

Lemma count_app {A} (f : A -> bool) (a b : list A) :
  count f (a ++ b) = count f a + count f b.
Proof. unfold count. rewrite filter_app, length_app. reflexivity. Qed.

(** The trace of the loop, whatever the transport does. *)
Lemma chat_loop_trace (self : t) (message : list Message) (k : nat) :
  forall retry n,
  retry + S k = 6 ->
  Forall (loop_event (request_of self message))
    (fst (chat_loop self message "" retry n))
  /\ 1 <= count is_request (fst (chat_loop self message "" retry n)) <= S k
  /\ count is_sleep (fst (chat_loop self message "" retry n))
     <= count is_request (fst (chat_loop self message "" retry n))
  /\ count is_request (fst (chat_loop self message "" retry n))
     <= count is_sleep (fst (chat_loop self message "" retry n)) + 1.
Proof.
  assert (Hone : forall j,
            Forall (loop_event (request_of self message))
              [EvRequest (request_of self message)]
            /\ 1 <= count is_request [EvRequest (request_of self message)]
               <= S j
            /\ count is_sleep [EvRequest (request_of self message)]
               <= count is_request [EvRequest (request_of self message)]
            /\ count is_request [EvRequest (request_of self message)]
               <= count is_sleep [EvRequest (request_of self message)] + 1).
  { intros j. split; [repeat constructor | cbn; lia]. }
  induction k as [ | k IH]; intros retry n Hk;
    rewrite LLMProps.chat_loop_unfold;
    destruct (chat_stream self message n) as [words [e | ]];
    try (cbn [fst]; apply Hone);
    destruct (string_dec (consume "" words) "") as [E | E];
    try (cbn [fst]; apply Hone);
    destruct (lt_dec 5 (retry + 1)) as [L | L]; try lia.
  - cbn [fst]. split; [repeat constructor | cbn; lia].
  - rewrite E. cbn [fst].
    destruct (IH (retry + 1) (n + 1) ltac:(lia)) as [Hall [Hreq [Hle Hge]]].
    rewrite !count_app.
    change (count is_request (retry_events (request_of self message)
                                (retry + 1))) with 1.
    change (count is_sleep (retry_events (request_of self message)
                              (retry + 1))) with 1.
    split; [ | lia].
    apply Forall_app. split; [ | exact Hall].
    repeat constructor.
Qed.

(** X4: whatever the transport does, a call of [chat] issues between one
    and six requests, all of them the request built from the record and
    the conversation; every sleep lasts 1.3, and the sleeps are as many
    as the requests or one fewer. *)
Theorem chat_trace_bounds (self : t) (message : list Message) (p : bool) :
  (forall r, In (EvRequest r) (fst (chat self message p)) ->
             r = request_of self message)
  /\ (forall d, In (EvSleep d) (fst (chat self message p)) -> d = 1.3%Q)
  /\ 1 <= count is_request (fst (chat self message p)) <= 6
  /\ count is_sleep (fst (chat self message p))
     <= count is_request (fst (chat self message p))
  /\ count is_request (fst (chat self message p))
     <= count is_sleep (fst (chat self message p)) + 1.
Proof.
  destruct (chat_loop_trace self message 5 0 0 eq_refl)
    as [Hall [Hreq [Hle Hge]]].
  unfold chat.
  destruct (chat_loop self message "" 0 0) as [tr [s | s | e]];
    cbn [fst] in *.
  2, 3: (rewrite Forall_forall in Hall;
         split; [intros r Hr; exact (Hall _ Hr) | ];
         split; [intros d Hd; exact (Hall _ Hd) | ];
         split; [exact Hreq | split; [exact Hle | exact Hge]]).
  assert (Hall' : Forall (fun e => is_print e = true
                                   \/ loop_event (request_of self message) e)
                    (tr ++ (if p then [EvPrint s] else []))).
  { apply Forall_app. split.
    - eapply Forall_impl; [ | exact Hall]. intros a Ha. right. exact Ha.
    - destruct p; repeat constructor. }
  rewrite Forall_forall in Hall'.
  split; [intros r Hr; destruct (Hall' _ Hr) as [H | H];
          [discriminate | exact H] | ].
  split; [intros d Hd; destruct (Hall' _ Hd) as [H | H];
          [discriminate | exact H] | ].
  rewrite !count_app.
  replace (count is_request (if p then [EvPrint s] else [])) with 0
    by (destruct p; reflexivity).
  replace (count is_sleep (if p then [EvPrint s] else [])) with 0
    by (destruct p; reflexivity).
  lia.
Qed.


(** X6: after [k <= 5] silent attempts, an attempt that closes normally
    with a non-empty fragment ends the call: [chat] returns the text of
    that attempt, and its effects are the [k] retries, the answered
    request and, if asked for, the printing. *)
Theorem chat_answers_after_k_retries
    (self : t) (message : list Message) (p : bool) (k : nat) :
  k <= 5 ->
  (forall n, n < k -> silent (response self message n)) ->
  failure (response self message k) = None ->
  (exists s, In s (fragments (chunks (response self message k)))
             /\ s <> "") ->
  chat self message p
  = ((retries (request_of self message) 0 k
      ++ EvRequest (request_of self message)
         :: (if p
             then [EvPrint
                     (String.concat ""
                        (filter nonempty
                           (fragments (chunks (response self message k)))))]
             else []))%list,
     Returned
       (String.concat ""
          (filter nonempty (fragments (chunks (response self message k)))))).
Proof.
  intros Hk Hs Hf [s [Hin Hne]]. unfold chat.
  rewrite (LLMProps.chat_loop_silent_then_answer self message k s 0 0
             ltac:(lia) Hs Hf Hin Hne).
  rewrite <- app_assoc. reflexivity.
Qed.

Lemma chat_answers_after_k_retries_witness :
  let req := request_of (Samples.llm_with late) Samples.conversation in
  chat (Samples.llm_with late) Samples.conversation true
  = ([EvRequest req; EvLogError "LLM chat error, retry 1"; EvSleep 1.3%Q;
      EvRequest req; EvLogError "LLM chat error, retry 2"; EvSleep 1.3%Q;
      EvRequest req; EvLogError "LLM chat error, retry 3"; EvSleep 1.3%Q;
      EvRequest req; EvPrint "Hi!"],
     Returned "Hi!").
Proof.
  apply (chat_answers_after_k_retries
           (Samples.llm_with late) Samples.conversation true 3).
  - lia.
  - intros n Hn.
    do 3 (destruct n as [ | n];
          [split; [reflexivity | repeat constructor] | ]).
    lia.
  - reflexivity.
  - exists "Hi". split; [simpl; auto | discriminate].
Defined.

(** Every response is silent, or raises, or closes normally with a
    non-empty fragment. *)
Lemma response_cases (r : Response) :
  silent r
  \/ (exists e, failure r = Some e)
  \/ (failure r = None
      /\ exists s, In s (fragments (chunks r)) /\ s <> "").
Proof.
  destruct (failure r) as [e | ] eqn:Hf; [right; left; eauto | ].
  destruct (Forall_Exists_dec (fun s => s = "")
              (fun s => string_dec s "") (fragments (chunks r)))
    as [Hall | Hex].
  - left. split; assumption.
  - right. right. split; [reflexivity | ].
    apply Exists_exists in Hex. exact Hex.
Qed.

(** Among the first [m] attempts, either all are silent or there is a
    first one that is not. *)
Lemma first_attempt_not_silent
    (self : t) (message : list Message) (m : nat) :
  (forall n, n < m -> silent (response self message n))
  \/ exists k, k < m
       /\ (forall n, n < k -> silent (response self message n))
       /\ ((exists e, failure (response self message k) = Some e)
           \/ (failure (response self message k) = None
               /\ exists s,
                    In s (fragments (chunks (response self message k)))
                    /\ s <> "")).
Proof.
  induction m as [ | m IH].
  - left. intros n Hn. lia.
  - destruct IH as [Hall | [k [Hk H]]].
    + destruct (response_cases (response self message m))
        as [Hs | Hns].
      * left. intros n Hn.
        destruct (Nat.eq_dec n m) as [-> | Hne]; [exact Hs | ].
        apply Hall. lia.
      * right. exists m. split; [lia | ]. split; [exact Hall | exact Hns].
    + right. exists k. split; [lia | exact H].
Qed.

Lemma exit_log_not_in_retries (req : Request) (k : nat) :
  k <= 5 ->
  ~ In (EvLogError "LLM chat error, retry 5 times, exit")
       (retries req 0 k ++ [EvRequest req]).
Proof.
  intros Hk H. apply in_app_or in H. destruct H as [H | [H | []]];
    [ | discriminate].
  do 6 (destruct k as [ | k]; [vm_compute in H; intuition discriminate | ]).
  lia.
Qed.

(** X7: [chat] gives up, logging the exhaustion, exactly when the six
    attempts are all silent; an error or an answer in any of them rules
    the give-up out. *)
Theorem chat_gives_up_iff_six_silent
    (self : t) (message : list Message) (p : bool) :
  In (EvLogError "LLM chat error, retry 5 times, exit")
     (fst (chat self message p))
  <-> forall n, n < 6 -> silent (response self message n).
Proof.
  split.
  - intros Hin.
    destruct (first_attempt_not_silent self message 6)
      as [Hall | [k [Hk [Hs Hns]]]]; [exact Hall | ].
    exfalso. unfold chat in Hin.
    destruct Hns as [[e He] | [Hf [s [Hs1 Hs2]]]].
    + rewrite (LLMProps.chat_loop_silent_then_raise self message k e 0 0
                 ltac:(lia) Hs He) in Hin.
      exact (exit_log_not_in_retries _ k ltac:(lia) Hin).
    + rewrite (LLMProps.chat_loop_silent_then_answer self message k s 0 0
                 ltac:(lia) Hs Hf Hs1 Hs2) in Hin.
      cbn [fst] in Hin. apply in_app_or in Hin.
      destruct Hin as [Hin | Hin].
      * exact (exit_log_not_in_retries _ k ltac:(lia) Hin).
      * destruct p; [destruct Hin as [Hin | []]; discriminate | destruct Hin].
  - intros Hall. unfold chat.
    rewrite (LLMProps.chat_loop_silent self message 5 0 0 eq_refl Hall).
    cbn [fst]. apply in_or_app. right. left. reflexivity.
Qed.

End LLMExtras.

(* ================================================================== *)
(** * Further facts about strings *)
(* ================================================================== *)

Module StrMore.

Import Py Converter Observe.

Lemma length_app (a b : string) :
  String.length (a ++ b) = String.length a + String.length b.
Proof. induction a as [ | c a IH]; simpl; [ | rewrite IH]; reflexivity. Qed.

Lemma drop_app_plus (a b : string) (k : nat) :
  drop (String.length a + k) (a ++ b) = drop k b.
Proof. induction a as [ | c a IH]; simpl; [reflexivity | exact IH]. Qed.

Lemma drop_split (k : nat) : forall s, exists a, s = a ++ drop k s.
Proof.
  induction k as [ | k IH]; intros s.
  - exists "". destruct s; reflexivity.
  - destruct s as [ | c s]; [exists ""; reflexivity | ].
    destruct (IH s) as [a Ha]. exists (String c a).
    simpl. rewrite <- Ha. reflexivity.
Qed.

Lemma endswith_app (a p : string) : endswith (a ++ p) p = true.
Proof.
  unfold endswith. rewrite length_app.
  replace (String.length a + String.length p - String.length p)
    with (String.length a + 0) by lia.
  rewrite drop_app_plus.
  replace (drop 0 p) with p by (destruct p; reflexivity).
  rewrite String.eqb_refl, andb_true_r. apply Nat.leb_le. lia.
Qed.

Lemma endswith_inv (s p : string) :
  endswith s p = true -> exists a, s = a ++ p.
Proof.
  unfold endswith. intros H. apply andb_prop in H. destruct H as [_ H].
  apply String.eqb_eq in H.
  destruct (drop_split (String.length s - String.length p) s) as [a Ha].
  exists a. rewrite H in Ha. exact Ha.
Qed.

Lemma all_space_rstrip (s : string) : all_space s = true -> rstrip s = "".
Proof.
  induction s as [ | c s IH]; [reflexivity | ].
  simpl. intros H. apply andb_prop in H. destruct H as [Hc Hs].
  rewrite (IH Hs), Hc. reflexivity.
Qed.

Lemma rstrip_all_space (s : string) : rstrip s = "" -> all_space s = true.
Proof.
  induction s as [ | c s IH]; [reflexivity | ].
  simpl. destruct (rstrip s) as [ | d k]; [ | discriminate].
  destruct (isspace c); [ | discriminate].
  intros _. exact (IH eq_refl).
Qed.

Lemma rstrip_app_space (s w : string) :
  all_space w = true -> rstrip (s ++ w) = rstrip s.
Proof.
  intros Hw. induction s as [ | c s IH].
  - simpl. apply all_space_rstrip. exact Hw.
  - change (String c s ++ w) with (String c (s ++ w)).
    cbn [rstrip]. rewrite IH. reflexivity.
Qed.

Lemma rstrip_idem (s : string) : rstrip (rstrip s) = rstrip s.
Proof.
  induction s as [ | c s IH]; [reflexivity | ].
  cbn [rstrip]. destruct (rstrip s) as [ | d k] eqn:E.
  - destruct (isspace c) eqn:Hc; [reflexivity | ].
    cbn [rstrip]. rewrite Hc. reflexivity.
  - cbn [rstrip] in IH |- *. rewrite IH. reflexivity.
Qed.

(** A stripped line does not end with white space. *)
Lemma rstrip_last (s : string) : last_is_space (rstrip s) = false.
Proof.
  induction s as [ | c s IH]; [reflexivity | ].
  cbn [rstrip]. destruct (rstrip s) as [ | d k] eqn:E.
  - destruct (isspace c) eqn:Hc; [reflexivity | ].
    cbn [last_is_space]. exact Hc.
  - exact IH.
Qed.

Lemma last_is_space_app (a b : string) :
  b <> "" -> last_is_space (a ++ b) = last_is_space b.
Proof.
  intros Hb. induction a as [ | c a IH]; [reflexivity | ].
  change (String c a ++ b) with (String c (a ++ b)).
  cbn [last_is_space]. destruct (a ++ b) as [ | d k] eqn:E.
  - apply StrFacts.app_is_empty in E. tauto.
  - exact IH.
Qed.

Lemma all_space_lstrip (s : string) :
  all_space (lstrip s) = true -> all_space s = true.
Proof.
  induction s as [ | c s IH]; [reflexivity | ].
  simpl. destruct (isspace c) eqn:Hc.
  - intros H. exact (IH H).
  - simpl. rewrite Hc. discriminate.
Qed.

(** A line without trailing white space whose stripped form is empty is
    itself empty. *)
Lemma strip_empty (s : string) : strip (rstrip s) = "" -> rstrip s = "".
Proof.
  unfold strip. intros H.
  apply rstrip_all_space, all_space_lstrip, all_space_rstrip in H.
  rewrite rstrip_idem in H. exact H.
Qed.

Lemma strip_last (s : string) : last_is_space (strip s) = false.
Proof. apply rstrip_last. Qed.

(** What follows a prefix that ends with a space, in a text that does
    not, is not empty. *)
Lemma text_after_prefix (s p : string) :
  startswith s p = true -> last_is_space p = true ->
  last_is_space s = false -> drop (String.length p) s <> "".
Proof.
  intros Hp Hlast Hs E. apply StrFacts.startswith_inv in Hp.
  rewrite E, StrFacts.app_empty_r in Hp. congruence.
Qed.

Lemma partition_spec (sep : string) : forall s a b,
  partition s sep = Some (a, b) -> s = a ++ sep ++ b.
Proof.
  induction s as [ | c s IH]; intros a b H.
  - change (partition "" sep)
      with (if startswith "" sep
            then Some ("", drop (String.length sep) "") else None) in H.
    destruct (startswith "" sep) eqn:Hs; [ | discriminate].
    injection H as <- <-. exact (StrFacts.startswith_inv _ _ Hs).
  - rewrite ConverterProps.partition_cons in H.
    destruct (startswith (String c s) sep) eqn:Hs.
    + injection H as <- <-. exact (StrFacts.startswith_inv _ _ Hs).
    + destruct (partition s sep) as [[a' b'] | ] eqn:Hp; [ | discriminate].
      injection H as <- <-. simpl. f_equal. exact (IH _ _ eq_refl).
Qed.

Lemma digits_dot_space_partition (s : string) :
  digits_dot_space s = true -> exists a b, partition s ". " = Some (a, b).
Proof.
  induction s as [ | c s IH]; [discriminate | ].
  cbn [digits_dot_space]. rewrite ConverterProps.partition_cons.
  destruct (startswith (String c s) ". "); [eauto | ].
  destruct (isdigit c); [ | discriminate].
  intros H. destruct (IH H) as [a [b Hab]]. rewrite Hab. eauto.
Qed.

(** When the pattern of a numbered item matches, the line splits at a
    dot and space. *)
Lemma match_numbered_partition (s : string) :
  match_numbered s = true -> exists a b, partition s ". " = Some (a, b).
Proof.
  destruct s as [ | c s]; [discriminate | ].
  unfold match_numbered. intros H. apply andb_prop in H.
  destruct H as [_ H]. rewrite ConverterProps.partition_cons.
  destruct (startswith (String c s) ". "); [eauto | ].
  destruct (digits_dot_space_partition s H) as [a [b Hab]].
  rewrite Hab. eauto.
Qed.

End StrMore.

(* ================================================================== *)
(** * Further properties of the converter *)
(* ================================================================== *)

Module ConverterExtras.

Import Py Docx Converter Observe.

Lemma startswith_nonempty (s p : string) :
  startswith s p = true -> p <> "" -> s <> "".
Proof. intros H Hp E. subst s. destruct p; [contradiction | discriminate]. Qed.

Lemma emitted_plain (t : string) (st : option string) :
  t <> "" -> In st styles -> st <> Some "No Spacing" ->
  emitted (new_paragraph t st).
Proof.
  intros Ht Hin Hst. split; [exact Hin | ].
  exists t. split; [exact Ht | ]. right. split; [reflexivity | exact Hst].
Qed.

Lemma emitted_heading (line p : string) (n : nat) :
  startswith line p = true -> last_is_space p = true ->
  last_is_space line = false ->
  In (Some ("Heading " ++ str_of_nat n)) styles ->
  Some ("Heading " ++ str_of_nat n) <> Some "No Spacing" ->
  emitted (heading (drop (String.length p) line) n).
Proof.
  intros Hp Hlp Hl Hin Hne. apply emitted_plain; [ | exact Hin | exact Hne].
  exact (StrMore.text_after_prefix _ _ Hp Hlp Hl).
Qed.

(** The four things a line can do. *)
Lemma process_line_cases (b : bool) (raw : string) (doc : Document) :
  (is_fence raw = true /\ process_line b raw doc = inr (negb b, doc))
  \/ (is_fence raw = false /\ rstrip raw = "" /\ b = true
      /\ process_line b raw doc
         = inl (IndexError "list index out of range"))
  \/ (is_fence raw = false /\ rstrip raw = "" /\ b = false
      /\ process_line b raw doc = inr (false, doc))
  \/ (is_fence raw = false /\ rstrip raw <> ""
      /\ exists p, emitted p
           /\ process_line b raw doc = inr (b, (doc ++ [p])%list)).
Proof.
  rewrite ConverterProps.process_line_table. cbv zeta. unfold is_fence.
  pose proof (StrMore.rstrip_last raw) as Hlast.
  pose proof (StrMore.strip_empty raw) as Hblank.
  pose proof (StrMore.strip_last (rstrip raw)) as Hslast.
  remember (rstrip raw) as line eqn:Hline. clear Hline.
  destruct (startswith line "```") eqn:Hf; [left; auto | right].
  destruct b.
  { destruct line as [ | c l]; [left; auto | right; right].
    split; [reflexivity | ]. split; [discriminate | ].
    eexists. split; [ | reflexivity].
    split; [vm_compute; tauto | ].
    exists (String c l). split; [discriminate | left; reflexivity]. }
  right.
  destruct (startswith line "# ") eqn:H1.
  { right. split; [reflexivity | ].
    split; [exact (startswith_nonempty _ _ H1 ltac:(discriminate)) | ].
    eexists. split; [ | reflexivity].
    apply (emitted_heading line "# " 1 H1 eq_refl Hlast);
      [vm_compute; tauto | discriminate]. }
  destruct (startswith line "## ") eqn:H2.
  { right. split; [reflexivity | ].
    split; [exact (startswith_nonempty _ _ H2 ltac:(discriminate)) | ].
    eexists. split; [ | reflexivity].
    apply (emitted_heading line "## " 2 H2 eq_refl Hlast);
      [vm_compute; tauto | discriminate]. }
  destruct (startswith line "### ") eqn:H3.
  { right. split; [reflexivity | ].
    split; [exact (startswith_nonempty _ _ H3 ltac:(discriminate)) | ].
    eexists. split; [ | reflexivity].
    apply (emitted_heading line "### " 3 H3 eq_refl Hlast);
      [vm_compute; tauto | discriminate]. }
  destruct (startswith line "#### ") eqn:H4.
  { right. split; [reflexivity | ].
    split; [exact (startswith_nonempty _ _ H4 ltac:(discriminate)) | ].
    eexists. split; [ | reflexivity].
    apply (emitted_heading line "#### " 4 H4 eq_refl Hlast);
      [vm_compute; tauto | discriminate]. }
  assert (Hne : strip line <> "" -> line <> "").
  { intros H E. subst line. apply H. reflexivity. }
  destruct (startswith (strip line) "- " || startswith (strip line) "* ")
    eqn:Hb.
  { right. split; [reflexivity | ].
    apply orb_prop in Hb.
    assert (Htext : drop 2 (strip line) <> "").
    { destruct Hb as [Hb | Hb].
      - exact (StrMore.text_after_prefix _ "- " Hb eq_refl Hslast).
      - exact (StrMore.text_after_prefix _ "* " Hb eq_refl Hslast). }
    split.
    - apply Hne. destruct Hb as [Hb | Hb];
        exact (startswith_nonempty _ _ Hb ltac:(discriminate)).
    - eexists. split; [ | reflexivity].
      apply emitted_plain; [exact Htext | vm_compute; tauto | discriminate]. }
  destruct (match_numbered (strip line)) eqn:Hm.
  { right. split; [reflexivity | ].
    destruct (StrMore.match_numbered_partition _ Hm) as [a [item Hp]].
    unfold split1. rewrite Hp. cbn [index nth_error].
    split.
    - apply Hne. intros E. rewrite E in Hm. discriminate.
    - eexists. split; [ | reflexivity].
      apply emitted_plain; [ | vm_compute; tauto | discriminate].
      intros E. subst item. apply StrMore.partition_spec in Hp.
      rewrite Hp in Hslast.
      rewrite (StrMore.last_is_space_app a (". " ++ ""))
        in Hslast by discriminate.
      discriminate. }
  destruct (String.eqb (strip line) "") eqn:He.
  { left. apply String.eqb_eq in He. auto. }
  right. split; [reflexivity | ].
  apply String.eqb_neq in He.
  split; [exact (Hne He) | ].
  eexists. split; [ | reflexivity].
  apply emitted_plain; [exact (Hne He) | vm_compute; tauto | discriminate].
Qed.


Lemma process_line_adds
    (b b' : bool) (raw : string) (doc doc' : Document) :
  process_line b raw doc = inr (b', doc') ->
  (emits raw = false /\ doc' = doc)
  \/ (emits raw = true /\ exists p, emitted p /\ doc' = (doc ++ [p])%list).
Proof.
  intros H. unfold emits.
  destruct (process_line_cases b raw doc)
    as [[Hf H'] | [[_ [_ [_ H']]] | [[Hf [E [_ H']]] | [Hf [E [p [Hp H']]]]]]];
    rewrite H' in H; try discriminate; injection H as _ <-.
  - left. rewrite Hf. auto.
  - left. rewrite Hf, E. auto.
  - right. rewrite Hf. apply String.eqb_neq in E. rewrite E.
    split; [reflexivity | eauto].
Qed.

(** X9: a line never changes the paragraphs already in the document,
    and adds at most one; a line that is a fence or blank adds none. *)
Theorem line_adds_at_most_one_paragraph
    (b b' : bool) (raw : string) (doc doc' : Document) :
  process_line b raw doc = inr (b', doc') ->
  (emits raw = false /\ doc' = doc)
  \/ (emits raw = true /\ exists p, emitted p /\ doc' = (doc ++ [p])%list).
Proof.
  intros H. unfold emits.
  destruct (process_line_cases b raw doc)
    as [[Hf H'] | [[_ [_ [_ H']]] | [[Hf [E [_ H']]] | [Hf [E [p [Hp H']]]]]]];
    rewrite H' in H; try discriminate; injection H as _ <-.
  - left. rewrite Hf. auto.
  - left. rewrite Hf, E. auto.
  - right. rewrite Hf. apply String.eqb_neq in E. rewrite E.
    split; [reflexivity | eauto].
Qed.

Lemma line_adds_at_most_one_paragraph_witness :
  (emits ("- item" ++ Samples.nl) = false
   /\ [new_paragraph "item" (Some "List Bullet")] = [])
  \/ (emits ("- item" ++ Samples.nl) = true
      /\ exists p, emitted p
           /\ [new_paragraph "item" (Some "List Bullet")] = ([] ++ [p])%list).
Proof.
  apply (line_adds_at_most_one_paragraph false false
           ("- item" ++ Samples.nl) []).
  reflexivity.
Defined.

(** The loop over the lines: the state follows the fences, the document
    grows by one well-formed paragraph for each line that emits. *)
Lemma for_lines_result (lines : list string) :
  forall b doc b' doc',
  for_lines lines b doc = inr (b', doc') ->
  b' = in_code_after b lines
  /\ exists added,
       doc' = (doc ++ added)%list
       /\ List.length added = count emits lines
       /\ Forall emitted added.
Proof.
  induction lines as [ | raw lines IH]; intros b doc b' doc' H.
  - injection H as <- <-. split; [reflexivity | ].
    exists []. rewrite app_nil_r. repeat split. constructor.
  - cbn [for_lines] in H. unfold bind in H.
    destruct (process_line b raw doc) as [e | [b1 doc1]] eqn:Hp;
      [discriminate | ].
    destruct (IH _ _ _ _ H) as [Hb [added [Hd [Hlen Hall]]]].
    assert (Hb1 : b1 = if is_fence raw then negb b else b).
    { destruct (process_line_cases b raw doc)
        as [[Hf H'] | [[_ [_ [_ H']]] | [[Hf [_ [E H']]] | [Hf [_ [p [_ H']]]]]]];
        rewrite H' in Hp; try discriminate; rewrite Hf;
        injection Hp as <- _; auto. }
    split; [cbn [in_code_after fold_left]; rewrite <- Hb1; exact Hb | ].
    unfold count in *. cbn [filter].
    destruct (process_line_adds _ _ _ _ _ Hp)
      as [[He Hdoc] | [He [p [Hgood Hdoc]]]]; rewrite He; subst doc1.
    + exists added. auto.
    + exists (p :: added). rewrite <- app_assoc in Hd.
      split; [exact Hd | ]. split; [simpl; lia | ].
      constructor; assumption.
Qed.

(** X10: a converted document holds exactly one paragraph for each line
    that is neither a fence nor blank, in the order of the lines. *)
Theorem paragraph_count (lines : list string) (doc : Document) :
  convert_lines lines = inr doc ->
  List.length doc = count emits lines.
Proof.
  unfold convert_lines. intros H.
  destruct (for_lines lines false new_document) as [e | [b doc']] eqn:Hfor;
    [discriminate | ].
  injection H as <-.
  destruct (for_lines_result _ _ _ _ _ Hfor) as [_ [added [Hd [Hlen _]]]].
  subst doc'. exact Hlen.
Qed.

Lemma paragraph_count_witness :
  List.length [heading "Title" 1; code_paragraph "x = 1";
               new_paragraph "end" None]
  = count emits ["# Title" ++ Samples.nl; Samples.nl;
                 "```python" ++ Samples.nl; "x = 1" ++ Samples.nl;
                 "```" ++ Samples.nl; "end" ++ Samples.nl].
Proof.
  apply (paragraph_count
           ["# Title" ++ Samples.nl; Samples.nl;
            "```python" ++ Samples.nl; "x = 1" ++ Samples.nl;
            "```" ++ Samples.nl; "end" ++ Samples.nl]).
  reflexivity.
Defined.

Lemma emitted_one_run (p : Paragraph) : emitted p -> one_run p.
Proof.
  intros [_ [t [Ht [E | [E _]]]]]; rewrite E.
  - eexists. split; [reflexivity | exact Ht].
  - unfold new_paragraph. destruct t as [ | c t]; [contradiction | ].
    eexists. split; [reflexivity | discriminate].
Qed.

(** X11: every paragraph of a converted document has exactly one run,
    whose text is not empty; its style is one of the default style, No
    Spacing, Heading 1 to 4, List Bullet and List Number; the fixed-width
    font is set on the No Spacing paragraphs and on no other. *)
Theorem converted_paragraphs_are_well_formed
    (lines : list string) (doc : Document) :
  convert_lines lines = inr doc ->
  Forall (fun p => emitted p /\ one_run p) doc.
Proof.
  unfold convert_lines. intros H.
  destruct (for_lines lines false new_document) as [e | [b doc']] eqn:Hfor;
    [discriminate | ].
  injection H as <-.
  destruct (for_lines_result _ _ _ _ _ Hfor) as [_ [added [Hd [_ Hall]]]].
  subst doc'. simpl. eapply Forall_impl; [ | exact Hall].
  intros p Hp. split; [exact Hp | exact (emitted_one_run _ Hp)].
Qed.

Lemma converted_paragraphs_are_well_formed_witness :
  Forall (fun p => emitted p /\ one_run p)
    [heading "Title" 1; new_paragraph "First" (Some "List Number")].
Proof.
  apply (converted_paragraphs_are_well_formed
           ["# Title" ++ Samples.nl; "1. First" ++ Samples.nl]).
  reflexivity.
Defined.

Lemma in_code_after_xor (lines : list string) : forall b,
  in_code_after b lines = xorb b (Nat.odd (count is_fence lines)).
Proof.
  unfold in_code_after, count.
  induction lines as [ | raw lines IH]; intros b.
  - simpl. destruct b; reflexivity.
  - cbn [fold_left filter]. rewrite IH.
    destruct (is_fence raw); [ | reflexivity].
    cbn [List.length]. rewrite Nat.odd_succ, <- Nat.negb_odd.
    destruct b, (Nat.odd (List.length (filter is_fence lines)));
      reflexivity.
Qed.

(** X12: a conversion that succeeds ends inside a code block exactly
    when the file has an odd number of fence lines. *)
Theorem final_state_is_fence_parity
    (lines : list string) (b : bool) (doc : Document) :
  for_lines lines false new_document = inr (b, doc) ->
  b = Nat.odd (count is_fence lines).
Proof.
  intros H. destruct (for_lines_result _ _ _ _ _ H) as [Hb _].
  rewrite Hb, in_code_after_xor. reflexivity.
Qed.

Lemma final_state_is_fence_parity_witness :
  true = Nat.odd (count is_fence ["```python" ++ Samples.nl;
                                  "x = 1" ++ Samples.nl]).
Proof.
  apply (final_state_is_fence_parity
           ["```python" ++ Samples.nl; "x = 1" ++ Samples.nl] true
           [code_paragraph "x = 1"]).
  reflexivity.
Defined.








(** X15: outside a code block, a line made of white space only adds
    nothing to the document and leaves the state as it is. *)
Theorem blank_line_adds_nothing_outside_code (raw : string) (doc : Document) :
  all_space raw = true ->
  process_line false raw doc = inr (false, doc).
Proof.
  intros H. rewrite ConverterProps.process_line_table. cbv zeta.
  rewrite (StrMore.all_space_rstrip _ H). reflexivity.
Qed.

Lemma blank_line_adds_nothing_outside_code_witness :
  process_line false ("   " ++ Samples.nl) [heading "Title" 1]
  = inr (false, [heading "Title" 1]).
Proof.
  apply (blank_line_adds_nothing_outside_code
           ("   " ++ Samples.nl) [heading "Title" 1]).
  reflexivity.
Defined.



Lemma process_line_rstrip (b : bool) (raw : string) (doc : Document) :
  process_line b (rstrip raw) doc = process_line b raw doc.
Proof.
  rewrite !ConverterProps.process_line_table. cbv zeta.
  rewrite StrMore.rstrip_idem. reflexivity.
Qed.

Lemma for_lines_trailing_space (lines lines' : list string) :
  Forall2 (fun raw raw' => exists w, all_space w = true /\ raw' = raw ++ w)
    lines lines' ->
  forall b doc, for_lines lines' b doc = for_lines lines b doc.
Proof.
  induction 1 as [ | raw raw' lines lines' [w [Hw E]] _ IH]; intros b doc.
  - reflexivity.
  - cbn [for_lines]. unfold bind.
    rewrite <- (process_line_rstrip b raw'), <- (process_line_rstrip b raw).
    subst raw'. rewrite (StrMore.rstrip_app_space _ _ Hw).
    destruct (process_line b (rstrip raw) doc) as [e | [b1 doc1]];
      [reflexivity | apply IH].
Qed.

(** X17: white space at the end of the lines does not count: a file
    whose lines carry further trailing white space (blanks, tabs, a
    carriage return, the line terminator) is converted to the same
    document, or fails in the same way. *)
Theorem trailing_white_space_is_ignored (lines lines' : list string) :
  Forall2 (fun raw raw' => exists w, all_space w = true /\ raw' = raw ++ w)
    lines lines' ->
  convert_lines lines' = convert_lines lines.
Proof.
  intros H. unfold convert_lines.
  rewrite (for_lines_trailing_space _ _ H). reflexivity.
Qed.

Lemma trailing_white_space_is_ignored_witness :
  convert_lines ["# Title" ++ "  " ++ Samples.nl; "text" ++ Samples.nl]
  = convert_lines ["# Title"; "text"].
Proof.
  apply (trailing_white_space_is_ignored ["# Title"; "text"]
           ["# Title" ++ "  " ++ Samples.nl; "text" ++ Samples.nl]).
  repeat constructor.
  - exists ("  " ++ Samples.nl). split; reflexivity.
  - exists Samples.nl. split; reflexivity.
Defined.

(** ** Output paths *)

(** Replacing the extension in a name that ends with it gives a name
    that ends with the new extension, whatever comes before. *)
Lemma replace_md_suffix (n : nat) : forall stem,
  String.length stem <= n ->
  exists out,
    replace_from 0 ".md" ".docx" (stem ++ ".md") = out ++ ".docx".
Proof.
  induction n as [ | n IH]; intros stem Hlen.
  - destruct stem; [exists ""; reflexivity | simpl in Hlen; lia].
  - destruct stem as [ | c stem]; [exists ""; reflexivity | ].
    simpl in Hlen.
    change (String c stem ++ ".md") with (String c (stem ++ ".md")).
    cbn [replace_from].
    destruct (startswith (String c (stem ++ ".md")) ".md") eqn:Hs.
    + destruct stem as [ | c2 [ | c3 stem]].
      * exfalso. revert Hs. cbn [append].
        rewrite !StrFacts.startswith_cons.
        repeat (destruct (ascii_dec _ _)); discriminate.
      * exfalso. revert Hs. cbn [append].
        rewrite !StrFacts.startswith_cons.
        repeat (destruct (ascii_dec _ _)); discriminate.
      * destruct (IH stem ltac:(simpl in Hlen; lia)) as [out Hout].
        exists (".docx" ++ out).
        change (String c2 (String c3 stem) ++ ".md")
          with (String c2 (String c3 (stem ++ ".md"))).
        cbn [String.length Nat.sub replace_from].
        rewrite Hout. reflexivity.
    + destruct (IH stem ltac:(lia)) as [out Hout].
      exists (String c out). rewrite Hout. reflexivity.
Qed.

Lemma path_join_suffix (a b : string) : exists before, path_join a b = before ++ b.
Proof.
  unfold path_join. destruct (startswith b "/"); [exists ""; reflexivity | ].
  destruct (String.eqb a "" || endswith a "/").
  - exists a. reflexivity.
  - exists (a ++ "/"). rewrite StrFacts.app_assoc. reflexivity.
Qed.

Lemma docx_is_not_md (a : string) : endswith (a ++ ".docx") ".md" = false.
Proof.
  unfold endswith. rewrite StrMore.length_app.
  replace (String.length a + String.length ".docx" - String.length ".md")
    with (String.length a + 2) by (simpl; lia).
  rewrite StrMore.drop_app_plus. apply andb_false_r.
Qed.

(** X18: for every entry that the converter takes, that is, whose name
    ends with ".md", the path of the document ends with ".docx" and not
    with ".md", wherever else the name holds ".md": the converter never
    writes over a file that it would take as a source. *)
Theorem output_path_ends_with_docx (source_dir filename : string) :
  endswith filename ".md" = true ->
  endswith (docx_path source_dir filename) ".docx" = true
  /\ endswith (docx_path source_dir filename) ".md" = false.
Proof.
  intros H. apply StrMore.endswith_inv in H. destruct H as [stem ->].
  unfold docx_path, replace.
  destruct (replace_md_suffix _ stem (le_n _)) as [out Hout].
  rewrite Hout.
  destruct (path_join_suffix source_dir (out ++ ".docx")) as [before ->].
  rewrite <- StrFacts.app_assoc.
  split; [apply StrMore.endswith_app | apply docx_is_not_md].
Qed.

Lemma output_path_ends_with_docx_witness :
  endswith (docx_path "docs/guides" "setup.md.old.md") ".docx" = true
  /\ endswith (docx_path "docs/guides" "setup.md.old.md") ".md" = false.
Proof.
  apply (output_path_ends_with_docx "docs/guides" "setup.md.old.md").
  reflexivity.
Defined.

(** X19: when the name holds ".md" at its end only, the document goes
    to the source directory under the same name with the extension
    changed, and nothing else in the name is altered. *)
Theorem single_extension_path (source_dir stem : string) :
  contains stem ".md" = false ->
  docx_path source_dir (stem ++ ".md")
  = path_join source_dir (stem ++ ".docx").
Proof.
  intros H. unfold docx_path.
  rewrite (ConverterProps.replace_single_extension _ H). reflexivity.
Qed.

Lemma single_extension_path_witness :
  docx_path "docs/guides" ("release-1.2" ++ ".md")
  = path_join "docs/guides" ("release-1.2" ++ ".docx").
Proof.
  apply (single_extension_path "docs/guides" "release-1.2"). reflexivity.
Defined.




(** ** The run over a directory *)

Lemma convert_entries_app (fs : FileSystem) (dir : string)
    (a b : list string) :
  convert_entries fs dir (a ++ b)
  = match convert_entries fs dir a with
    | (effects, Some e) => (effects, Some e)
    | (effects, None) =>
        ((effects ++ fst (convert_entries fs dir b))%list,
         snd (convert_entries fs dir b))
    end.
Proof.
  induction a as [ | f a IH].
  - simpl. destruct (convert_entries fs dir b). reflexivity.
  - cbn [app convert_entries].
    destruct (convert_entry fs dir f) as [effects [e | ]]; [reflexivity | ].
    rewrite IH.
    destruct (convert_entries fs dir a) as [ea [e | ]]; [reflexivity | ].
    cbn [fst snd]. rewrite app_assoc. reflexivity.
Qed.

Lemma convert_entries_all (fs : FileSystem) (dir : string)
    (entries : list string) :
  Forall (converts fs dir) entries ->
  snd (convert_entries fs dir entries) = None
  /\ fst (convert_entries fs dir entries)
     = flat_map (fun f => fst (convert_entry fs dir f)) entries.
Proof.
  induction 1 as [ | f entries Hf _ [IH1 IH2]]; [split; reflexivity | ].
  cbn [convert_entries flat_map]. unfold converts in Hf.
  destruct (convert_entry fs dir f) as [effects [e | ]]; [discriminate | ].
  destruct (convert_entries fs dir entries) as [later result].
  cbn [fst snd] in *. subst. split; reflexivity.
Qed.

(** X21: there is no isolation between the files: when an entry fails
    (its file cannot be read, or its conversion raises), the run ends
    with that exception, after the effects of the entries before it and
    the announcement of the failing one; the entries after it are
    neither announced nor converted, whatever they are. *)
Theorem run_stops_at_first_failure
    (fs : FileSystem) (dir f : string) (pre post : list string)
    (e : Py.Error) :
  Forall (converts fs dir) pre ->
  snd (convert_entry fs dir f) = Some e ->
  convert_entries fs dir (pre ++ f :: post)
  = ((flat_map (fun g => fst (convert_entry fs dir g)) pre
      ++ [Print ("Converting " ++ f ++ " to DOCX...")])%list,
     Some e).
Proof.
  intros Hpre Hf. rewrite convert_entries_app.
  destruct (convert_entries_all _ _ _ Hpre) as [Hnone Heff].
  destruct (convert_entries fs dir pre) as [effects result].
  cbn [fst snd] in *. subst result effects.
  cbn [convert_entries].
  assert (Hone : convert_entry fs dir f
                 = ([Print ("Converting " ++ f ++ " to DOCX...")], Some e)).
  { revert Hf. unfold convert_entry.
    destruct (endswith f ".md"); [ | discriminate].
    destruct (readlines fs (md_path dir f)) as [e' | lines].
    - cbn. congruence.
    - destruct (convert_lines lines); cbn; [congruence | discriminate]. }
  rewrite Hone. reflexivity.
Qed.

Lemma run_stops_at_first_failure_witness :
  convert_entries Samples.guides "docs/guides"
    (["logo.png"; "setup.md"] ++ "missing.md" :: ["intro.md"])
  = ((flat_map (fun g => fst (convert_entry Samples.guides "docs/guides" g))
        ["logo.png"; "setup.md"]
      ++ [Print ("Converting " ++ "missing.md" ++ " to DOCX...")])%list,
     Some (Py.OSError "No such file or directory")).
Proof.
  apply (run_stops_at_first_failure Samples.guides "docs/guides"
           "missing.md" ["logo.png"; "setup.md"] ["intro.md"]).
  - repeat constructor.
  - reflexivity.
Defined.

Lemma saved_entry (fs : FileSystem) (dir f : string) :
  converts fs dir f ->
  map fst (saved (fst (convert_entry fs dir f)))
  = if endswith f ".md" then [docx_path dir f] else [].
Proof.
  unfold converts.
  pose proof (ConverterProps.convert_entry_table fs dir f) as T.
  destruct (endswith f ".md").
  - destruct (readlines fs (md_path dir f)) as [e | lines].
    + injection T as _ T. congruence.
    + destruct (convert_lines lines) as [e | doc].
      * injection T as _ T. congruence.
      * injection T as T _. rewrite T. reflexivity.
  - injection T as T _. rewrite T. reflexivity.
Qed.

(** X22: when every entry is converted without error, the run ends
    normally and the documents saved are, in the order of the listing,
    those of the entries whose name ends with ".md", each at its derived
    path; the other entries leave no trace. *)
Theorem successful_run_saves_the_markdown_entries
    (fs : FileSystem) (dir : string) (entries : list string) :
  listdir fs dir = inr entries ->
  Forall (converts fs dir) entries ->
  snd (convert_markdown_to_docx fs dir) = None
  /\ map fst (saved (fst (convert_markdown_to_docx fs dir)))
     = map (docx_path dir) (filter (fun f => endswith f ".md") entries).
Proof.
  intros Hl Hall. unfold convert_markdown_to_docx. rewrite Hl.
  destruct (convert_entries_all _ _ _ Hall) as [Hnone Heff].
  split; [exact Hnone | ]. rewrite Heff. clear Hnone Heff Hl.
  induction Hall as [ | f entries Hf _ IH]; [reflexivity | ].
  cbn [flat_map filter]. rewrite ConverterProps.saved_app, map_app, IH.
  rewrite (saved_entry _ _ _ Hf).
  destruct (endswith f ".md"); reflexivity.
Qed.

Lemma successful_run_saves_the_markdown_entries_witness :
  snd (convert_markdown_to_docx Samples.guides "docs/guides") = None
  /\ map fst (saved (fst (convert_markdown_to_docx Samples.guides
                            "docs/guides")))
     = map (docx_path "docs/guides")
         (filter (fun f => endswith f ".md")
            ["intro.md"; "logo.png"; "setup.md"]).
Proof.
  apply (successful_run_saves_the_markdown_entries Samples.guides
           "docs/guides" ["intro.md"; "logo.png"; "setup.md"]).
  - reflexivity.
  - repeat constructor.
Defined.

(** ** The entry point *)

Lemma endswith_slash_docs (a : string) : endswith (a ++ "/docs") "/" = false.
Proof.
  unfold endswith. rewrite StrMore.length_app.
  replace (String.length a + String.length "/docs" - String.length "/")
    with (String.length a + 4) by (simpl; lia).
  rewrite StrMore.drop_app_plus. apply andb_false_r.
Qed.

Lemma path_join_plain (a b : string) :
  a <> "" -> endswith a "/" = false -> startswith b "/" = false ->
  path_join a b = a ++ "/" ++ b.
Proof.
  intros Ha Hs Hb. unfold path_join. rewrite Hb, Hs.
  destruct a; [contradiction | reflexivity].
Qed.

(** X23: run from a working directory that is not empty and does not
    end with a slash, the script handles the directory "docs/guides"
    below it: it converts that directory when it exists, and otherwise
    prints that it was not found, reads and saves nothing and ends
    normally. *)
Theorem main_converts_docs_guides
    (os : Script.Process) (fs : FileSystem) :
  Script.getcwd os <> "" ->
  endswith (Script.getcwd os) "/" = false ->
  Script.guides_dir os = Script.getcwd os ++ "/docs/guides"
  /\ Script.main os fs
     = if Script.path_exists os (Script.getcwd os ++ "/docs/guides")
       then convert_markdown_to_docx fs (Script.getcwd os ++ "/docs/guides")
       else ([Print ("Directory not found: "
                     ++ Script.getcwd os ++ "/docs/guides")], None).
Proof.
  intros Hne Hslash.
  assert (Hdir : Script.guides_dir os = Script.getcwd os ++ "/docs/guides").
  { unfold Script.guides_dir.
    rewrite (path_join_plain (Script.getcwd os) "docs" Hne Hslash eq_refl).
    change (Script.getcwd os ++ "/" ++ "docs")
      with (Script.getcwd os ++ "/docs").
    rewrite (path_join_plain (Script.getcwd os ++ "/docs") "guides").
    - rewrite StrFacts.app_assoc. reflexivity.
    - intros E. apply StrFacts.app_is_empty in E. tauto.
    - apply endswith_slash_docs.
    - reflexivity. }
  split; [exact Hdir | ]. unfold Script.main. rewrite Hdir. reflexivity.
Qed.

Lemma main_converts_docs_guides_witness :
  let os := Script.mkProcess "/home/user/repo" (fun _ => false) in
  Script.guides_dir os = Script.getcwd os ++ "/docs/guides"
  /\ Script.main os Samples.guides
     = if Script.path_exists os (Script.getcwd os ++ "/docs/guides")
       then convert_markdown_to_docx Samples.guides
              (Script.getcwd os ++ "/docs/guides")
       else ([Print ("Directory not found: "
                     ++ Script.getcwd os ++ "/docs/guides")], None).
Proof.
  apply (main_converts_docs_guides
           (Script.mkProcess "/home/user/repo" (fun _ => false))
           Samples.guides).
  - discriminate.
  - reflexivity.
Defined.

End ConverterExtras.
